(** * koinos-cli wallet: the command layer

    A shallow embedding of [internal/wallet/contract_commands.go] (the
    register command and the synthesized read / write contract commands) and
    of the wallet's static commands (balance, create, generate, info, open,
    exit), with the properties the specification states about them.

    Go values are modelled as follows.
    - [string] is Go's byte string; [bytes] is [[]byte].
    - A function returning [(T, error)] returns [Result T].
    - A command's [Execute] runs in the monad [M]: it threads the execution
      environment and the log of requests handed to the RPC transport, and
      ends by returning a result, returning an error, panicking or leaving
      the process.
    - The operating system, the protobuf and JSON libraries, the RPC
      transport and the key store are the fields of the class [Host]. *)

From Stdlib Require Import ZArith String Ascii List Lia Bool.
From Stdlib.Strings Require Import Byte.
From stdpp Require Import base gmap strings list pretty.

Open Scope Z_scope.

(* ------------------------------------------------------------------------- *)
(** ** Errors *)
(* ------------------------------------------------------------------------- *)

Definition bytes := list byte.

(** The sentinel errors ([errors.New] values) the commands wrap or return.
    [ErrWalletExists] and [ErrWalletClosed] are declared with the wallet's
    errors; [ErrWalletDecrypt], [util.ErrContract] and [util.ErrInvalidABI]
    are used by the commands; [ErrSyntax] and [ErrRange] are strconv's.
    [ErrTypeNotFound] is the registry's lookup failure, named as the
    specification names it. *)
Inductive sentinel :=
| ErrWalletExists
| ErrWalletClosed
| ErrWalletDecrypt
| ErrContract
| ErrInvalidABI
| ErrTypeNotFound
| ErrSyntax
| ErrRange.

#[global] Instance sentinel_eq_dec : EqDecision sentinel.
Proof. solve_decision. Defined.

(** Go error values. *)
Inductive error :=
| Sentinel (s : sentinel)
    (* the sentinel itself *)
| Errorf (s : sentinel) (detail : string)
    (* fmt.Errorf("%w: <detail>", s, ...) *)
| ErrorfErr (s : sentinel) (cause : error)
    (* fmt.Errorf("%w: %s", s, cause): only [s] is wrapped *)
| NumError (func num : string) (s : sentinel)
    (* *strconv.NumError{Func, Num, Err} *)
| Opaque (msg : string).
    (* an error made by the operating system, a library or the transport *)

(** [errors.Is err target]. *)
Definition Is (err : error) (target : sentinel) : bool :=
  match err with
  | Sentinel s | Errorf s _ | ErrorfErr s _ | NumError _ _ s =>
      bool_decide (s = target)
  | Opaque _ => false
  end.

(** A Go [(value, error)] pair with the usual discipline: the value is
    meaningful only when the error is nil. *)
Inductive Result (A : Type) :=
| Ok (a : A)
| Err (e : error).
Arguments Ok {A} a.
Arguments Err {A} e.

(* ------------------------------------------------------------------------- *)
(** ** strconv.ParseInt *)
(* ------------------------------------------------------------------------- *)

Module strconv.

Definition byteOf (c : ascii) : Z := Z.of_N (N_of_ascii c).

(** [lower(c)]: [c | ('x' - 'X')]. *)
Definition lower (c : Z) : Z := Z.lor c 32.

Definition uint64 (n : Z) : Z := n mod 2 ^ 64.

(** The digit switch of [ParseUint]'s loop: [None] is its [default]
    branch, a syntax error. *)
Definition digit (c : ascii) : option Z :=
  let b := byteOf c in
  if (48 <=? b) && (b <=? 57) then Some (b - 48)
  else if (97 <=? lower b) && (lower b <=? 122) then Some (lower b - 97 + 10)
  else None.

(** The loop of [ParseUint] over the bytes of [s], for a base between 2 and
    36 (so [base0] is false and an underscore is a syntax error):
    [n] is the accumulator, [maxVal = 1<<bitSize - 1], [cutoff] the least
    [n] with [n * base] overflowing 64 bits. The result is Go's pair of the
    value and the [NumError]'s [Err], if any. *)
Fixpoint parseUintLoop (base cutoff maxVal n : Z) (s : string)
  : Z * option sentinel :=
  match s with
  | EmptyString => (n, None)
  | String c rest =>
      match digit c with
      | None => (0, Some ErrSyntax)
      | Some d =>
          if base <=? d then (0, Some ErrSyntax)
          else if cutoff <=? n then (maxVal, Some ErrRange)
          else
            let n0 := uint64 (n * base) in
            let n1 := uint64 (n0 + d) in
            if (n1 <? n0) || (maxVal <? n1) then (maxVal, Some ErrRange)
            else parseUintLoop base cutoff maxVal n1 rest
      end
  end.

Definition ParseUint (s : string) (base bitSize : Z) : Z * option sentinel :=
  match s with
  | EmptyString => (0, Some ErrSyntax)
  | _ =>
      let cutoff := (2 ^ 64 - 1) / base + 1 in
      let maxVal := 2 ^ bitSize - 1 in
      parseUintLoop base cutoff maxVal 0 s
  end.

(** [ParseInt(s, base, bitSize)] for [2 <= base <= 36] and
    [0 < bitSize <= 64]: Go's pair of the value and the error. *)
Definition ParseInt (s : string) (base bitSize : Z) : Z * option error :=
  let fnParseInt := "ParseInt" in
  match s with
  | EmptyString => (0, Some (NumError fnParseInt s ErrSyntax))
  | String c0 rest =>
      let s0 := s in
      let '(neg, s) :=
        if Ascii.eqb c0 "+" then (false, rest)
        else if Ascii.eqb c0 "-" then (true, rest)
        else (false, s) in
      match ParseUint s base bitSize with
      | (_, Some ErrRange) as r | (_, None) as r =>
          let un := fst r in
          let cutoff := 2 ^ (bitSize - 1) in
          if negb neg && (cutoff <=? un)
          then (cutoff - 1, Some (NumError fnParseInt s0 ErrRange))
          else if neg && (cutoff <? un)
          then (- cutoff, Some (NumError fnParseInt s0 ErrRange))
          else (if neg then - un else un, None)
      | (_, Some e) => (0, Some (NumError fnParseInt s0 e))
      end
  end.

End strconv.

(** [uint32(n)] of a signed integer: the low 32 bits. *)
Definition uint32 (n : Z) : Z := n mod 2 ^ 32.

(** [int64(n)] of an unsigned 64-bit integer: two's complement. *)
Definition int64 (n : Z) : Z :=
  let m := n mod 2 ^ 64 in
  if m <? 2 ^ 63 then m else m - 2 ^ 64.

(** [s[i:]] on a Go string: [None] when [i] is past the end (a run-time
    panic, slice bounds out of range). *)
Fixpoint sliceFrom (i : nat) (s : string) : option string :=
  match i, s with
  | O, _ => Some s
  | S _, EmptyString => None
  | S j, String _ rest => sliceFrom j rest
  end.

(* ------------------------------------------------------------------------- *)
(** ** Data model *)
(* ------------------------------------------------------------------------- *)

(** Protobuf descriptors, as far as the commands look into them:
    a file's top-level messages and a message's fields. *)
Inductive Kind :=
| BoolKind | Int32Kind | Int64Kind | Uint32Kind | Uint64Kind
| StringKind | BytesKind | MessageKind.

Record FieldDescriptor := {
  fd_Name : string;
  fd_Kind : Kind
}.

Record MessageDescriptor := {
  md_Name : string;
  md_Fields : list FieldDescriptor
}.

Record FileDescriptor := {
  file_Path : string;
  file_Messages : list MessageDescriptor
}.

(** [descriptorpb.FileDescriptorSet]: the decoded, not yet linked files. *)
Definition FileDescriptorSet := list FileDescriptor.

(** [fDesc.Messages().ByName(name)]: nil when no message has that name. *)
Definition ByName (msgs : list MessageDescriptor) (name : string)
  : option MessageDescriptor :=
  find (fun d => String.eqb (md_Name d) name) msgs.

(** A dynamic protobuf message: its descriptor and the fields that are set. *)
Inductive Value :=
| VBool (b : bool)
| VInt (n : Z)
| VString (s : string)
| VBytes (b : bytes).

Record Message := {
  msg_Descriptor : MessageDescriptor;
  msg_Fields : list (string * Value)
}.

(** [dynamicpb.NewMessage(md)] *)
Definition NewMessage (md : MessageDescriptor) : Message :=
  {| msg_Descriptor := md; msg_Fields := [] |}.

(** The ABI document, as [json.Unmarshal] fills it. *)
Record ABIMethod := {
  m_Name : string;
  m_Description : string;
  m_EntryPoint : string;
  m_Argument : string;
  m_Return : string;
  m_ReadOnly : bool
}.

Record ABI := {
  abi_Methods : list ABIMethod;
  abi_Types : bytes
}.

Record Contract := {
  c_Name : string;
  c_Address : string;
  c_ABI : ABI;
  c_File : FileDescriptor
}.

(** The parsed invocation a command is built from. *)
Record CommandParseResult := {
  CommandName : string;
  Args : gmap string string
}.

(** [CommandArgType] *)
Inductive CommandArgType :=
| Address
| String_.

Record CommandArg := {
  arg_Name : string;
  arg_ArgType : CommandArgType
}.

Definition NewCommandArg (name : string) (argType : CommandArgType) : CommandArg :=
  {| arg_Name := name; arg_ArgType := argType |}.

(** The implementations of the [CLICommand] interface: one constructor per
    struct, carrying the struct's fields. *)
Inductive CLICommand :=
| BalanceCommand (Address : string)
| ExitCommand
| GenerateKeyCommand
| CreateCommand (Filename Password : string)
| InfoCommand
| OpenCommand (Filename Password : string)
| RegisterCommand (Name Address ABIFilename : string)
| ReadContractCommand (ParseResult : CommandParseResult)
| WriteContractCommand (ParseResult : CommandParseResult).

Record CommandDeclaration := {
  decl_Name : string;
  decl_Description : string;
  decl_Instantiation : CommandParseResult -> CLICommand;
  decl_Args : list CommandArg;
  decl_Hidden : bool
}.

Definition NewCommandDeclaration (name description : string) (hidden : bool)
    (instantiation : CommandParseResult -> CLICommand) (args : list CommandArg)
  : CommandDeclaration :=
  {| decl_Name := name;
     decl_Description := description;
     decl_Hidden := hidden;
     decl_Instantiation := instantiation;
     decl_Args := args |}.

(** [ExecutionResult] *)
Record ExecutionResult := {
  er_Message : list string
}.

Definition NewExecutionResult : ExecutionResult := {| er_Message := [] |}.

Definition AddMessage (er : ExecutionResult) (m : string) : ExecutionResult :=
  {| er_Message := er_Message er ++ [m] |}.

(** [fmt.Println(m)]: what it writes to the standard output, [m] and a
    newline. *)
Definition Println (m : string) : string := m +:+ String "010" EmptyString.

(** [(er *ExecutionResult) Print]: the writes to the standard output, in
    order. *)
Definition Print (er : ExecutionResult) : list string :=
  map Println (er_Message er).

(** The wallet's key and the handle of the RPC client. *)
Record KoinosKey := {
  key_PrivateBytes : bytes
}.

Record KoinosRPCClient := {
  rpc_Endpoint : string
}.

(** The command parser owns the command set, an ordered sequence of
    declarations. *)
Record CommandParser := {
  Commands : list CommandDeclaration
}.

(** [ExecutionEnvironment]: the fields the commands read and write. *)
Record ExecutionEnvironment := {
  RPCClient : KoinosRPCClient;
  KoinContractID : option bytes;
  KoinBalanceOfEntry : Z;
  Key : option KoinosKey;
  Contracts : gmap string Contract;
  Parser : CommandParser
}.

(** [ee.IsWalletOpen()] *)
Definition IsWalletOpen (ee : ExecutionEnvironment) : bool :=
  match Key ee with Some _ => true | None => false end.

Definition set_Key (k : option KoinosKey) (ee : ExecutionEnvironment) :=
  {| RPCClient := RPCClient ee; KoinContractID := KoinContractID ee;
     KoinBalanceOfEntry := KoinBalanceOfEntry ee; Key := k;
     Contracts := Contracts ee; Parser := Parser ee |}.

Definition set_Contracts (c : gmap string Contract) (ee : ExecutionEnvironment) :=
  {| RPCClient := RPCClient ee; KoinContractID := KoinContractID ee;
     KoinBalanceOfEntry := KoinBalanceOfEntry ee; Key := Key ee;
     Contracts := c; Parser := Parser ee |}.

Definition set_Parser (p : CommandParser) (ee : ExecutionEnvironment) :=
  {| RPCClient := RPCClient ee; KoinContractID := KoinContractID ee;
     KoinBalanceOfEntry := KoinBalanceOfEntry ee; Key := Key ee;
     Contracts := Contracts ee; Parser := p |}.

(** Hardcoded Koin contract constants *)
Definition ReadContractCall : string := "chain.read_contract".
Definition KoinSymbol : string := "tKOIN".
Definition KoinPrecision : Z := 8.

(** [types.ReadContractRequest] *)
Record ReadContractRequest := {
  req_ContractID : bytes;
  req_EntryPoint : Z;
  req_Args : bytes
}.

(* ------------------------------------------------------------------------- *)
(** ** The contract registry, the command set and the hex codec *)
(* ------------------------------------------------------------------------- *)

(** [cutLast s]: [s] cut at its last ["."], or [None] when it has none. *)
Fixpoint cutLast (s : string) : option (string * string) :=
  match s with
  | EmptyString => None
  | String c rest =>
      match cutLast rest with
      | Some (p, q) => Some (String c p, q)
      | None => if Ascii.eqb c "." then Some (EmptyString, rest) else None
      end
  end.

(** Modelled from the spec: the contract registry ([ee.Contracts]), whose
    methods the commands call and which is defined outside the files
    modelled here.
    [contains(name) -> bool]. *)
Definition Contains (cs : gmap string Contract) (name : string) : bool :=
  bool_decide (is_Some (cs !! name)).

(** Modelled from the spec: the registry's
    [add(name, address, abi, schemaFileDescriptor) -> Error(ContractExists) | ok],
    which rejects duplicate names. The result is the registry afterwards and
    the error, if any. *)
Definition Add (cs : gmap string Contract)
    (name address : string) (abi : ABI) (fd : FileDescriptor)
  : gmap string Contract * option error :=
  if Contains cs name
  then (cs, Some (Errorf ErrContract ("contract " +:+ name +:+ " already exists")))
  else (<[name := {| c_Name := name; c_Address := address;
                     c_ABI := abi; c_File := fd |}]> cs, None).

(** Modelled from the spec: the registry's [getFromMethodName(qualifiedName)];
    the qualified name is [<contract>.<method>], split on the last separator,
    and the contract part is looked up. The result is a pointer: nil when
    there is no such contract. *)
Definition GetFromMethodName (cs : gmap string Contract) (qualified : string)
  : option Contract :=
  match cutLast qualified with
  | Some (contract, _) => cs !! contract
  | None => None
  end.

(** Modelled from the spec: the registry's [getMethod(qualifiedName)]. The
    commands use its result as a pointer to the ABI method: nil when the
    contract or the method is not found. *)
Definition GetMethod (cs : gmap string Contract) (qualified : string)
  : option ABIMethod :=
  match cutLast qualified with
  | Some (contract, method) =>
      match cs !! contract with
      | Some c => find (fun m => String.eqb (m_Name m) method) (abi_Methods (c_ABI c))
      | None => None
      end
  | None => None
  end.

(** Modelled from the spec: the registry's
    [getMethodReturnSchema(qualifiedName) -> Schema Descriptor | Error]: the
    method's return type name resolved in the contract's schema file. *)
Definition GetMethodReturn (cs : gmap string Contract) (qualified : string)
  : Result MessageDescriptor :=
  match GetFromMethodName cs qualified, GetMethod cs qualified with
  | Some c, Some m =>
      match ByName (file_Messages (c_File c)) (m_Return m) with
      | Some md => Ok md
      | None => Err (Errorf ErrTypeNotFound (m_Return m))
      end
  | _, _ => Err (Errorf ErrContract qualified)
  end.

(** Modelled from the spec: the command set's
    [addCommand(decl) -> Error(DuplicateCommand)] if the name collides; a
    rejected declaration leaves the set as it was, an accepted one is
    appended. *)
Definition hasCommand (cs : list CommandDeclaration) (name : string) : bool :=
  existsb (fun d => String.eqb (decl_Name d) name) cs.

Definition AddCommand (cs : list CommandDeclaration) (decl : CommandDeclaration)
  : list CommandDeclaration :=
  if hasCommand cs (decl_Name decl) then cs else cs ++ [decl].

(** The value of a hexadecimal digit. *)
Definition hexVal (c : ascii) : option N :=
  let n := N_of_ascii c in
  if (48 <=? n)%N && (n <=? 57)%N then Some (n - 48)%N
  else if (97 <=? n)%N && (n <=? 102)%N then Some (n - 87)%N
  else if (65 <=? n)%N && (n <=? 70)%N then Some (n - 55)%N
  else None.

Fixpoint hexDecode (s : string) : option bytes :=
  match s with
  | EmptyString => Some []
  | String _ EmptyString => None
  | String hi (String lo rest) =>
      match hexVal hi, hexVal lo, hexDecode rest with
      | Some h, Some l, Some bs =>
          Some (byte_of_ascii (ascii_of_N (16 * h + l)) :: bs)
      | _, _, _ => None
      end
  end.

(** Modelled from the spec: [util.HexStringToBytes], which is defined
    outside the files modelled here. A hex-encoded string, with or without the leading ["0x"], is
    decoded to raw bytes; a malformed hex string is an error. *)
Definition HexStringToBytes (s : string) : Result bytes :=
  let digits :=
    match s with
    | String "0" (String "x" rest) => rest
    | _ => s
    end in
  match hexDecode digits with
  | Some bs => Ok bs
  | None => Err (Opaque ("invalid hex string: " +:+ s))
  end.

(* ------------------------------------------------------------------------- *)
(** ** The world outside the commands *)
(* ------------------------------------------------------------------------- *)

(** A request handed to the RPC transport. *)
Inductive RPCCall :=
| CallReadContract (args contractID : bytes) (entryPoint : Z)
| CallWriteMessageContract (msg : Message) (key : option KoinosKey)
    (contractID : bytes) (entryPoint : Z)
| CallProcedure (method : string) (params : ReadContractRequest).

(** An open file, named by its path. *)
Definition File := string.

(** What the commands call and do not define: the operating system, the
    JSON and protobuf libraries, the key store, the RPC transport (whose
    reply may depend on the requests it has served), and the functions of the
    wallet package that are defined outside the files modelled here
    ([ParseABIFields], [ParseResultToMessage], [SatoshiToDecimal] and the key
    store). *)
Class Host := {
  os_Open : string -> Result File;
  os_Stat : string -> option error;
  os_IsNotExist : error -> bool;
  os_Create : string -> Result File;
  ioutil_ReadAll : File -> Result bytes;
  json_Unmarshal : bytes -> Result ABI;
  proto_Unmarshal_FileDescriptorSet : bytes -> Result FileDescriptorSet;
  (* protodesc.NewFiles: the linked files, nil (no file) on an error *)
  protodesc_NewFiles : FileDescriptorSet -> list FileDescriptor;
  proto_Marshal : Message -> Result bytes;
  proto_Unmarshal : bytes -> Message -> Result Message;
  prototext_Marshal : Message -> Result string;
  ParseABIFields : MessageDescriptor -> Result (list CommandArg);
  ParseResultToMessage :
    CommandParseResult -> gmap string Contract -> Result Message;
  SatoshiToDecimal : Z -> Z -> Result string;
  Account_Serialize : string -> bytes;
  DeserializeUInt64 : bytes -> Result Z;
  GenerateKoinosKey : Result KoinosKey;
  NewKoinosKeysFromBytes : bytes -> Result KoinosKey;
  CreateWalletFile : File -> string -> bytes -> option error;
  ReadWalletFile : File -> string -> Result bytes;
  key_Address : KoinosKey -> string;
  key_Private : KoinosKey -> string;
  rpc_RoundTrip : KoinosRPCClient -> list RPCCall -> RPCCall -> Result bytes
}.

(** [os.IsNotExist(err)]: false on a nil error. *)
Definition IsNotExist `{Host} (err : option error) : bool :=
  match err with
  | Some e => os_IsNotExist e
  | None => false
  end.

(* ------------------------------------------------------------------------- *)
(** ** The execution monad *)
(* ------------------------------------------------------------------------- *)

(** How a call of [Execute] ends. *)
Inductive Outcome (A : Type) :=
| Returned (a : A)        (* return a, nil *)
| Failed (e : error)      (* return nil, e *)
| Panicked (msg : string) (* panic: the process dies *)
| Exited (code : Z).      (* os.Exit(code) *)
Arguments Returned {A} a.
Arguments Failed {A} e.
Arguments Panicked {A} msg.
Arguments Exited {A} code.

(** The state a command runs in: the execution environment it is handed and
    the requests made of the RPC transport so far, oldest first. *)
Record Machine := {
  ee : ExecutionEnvironment;
  wire : list RPCCall
}.

Definition M (A : Type) : Type := Machine -> Outcome A * Machine.

Definition ret {A} (a : A) : M A := fun s => (Returned a, s).

Definition bind {A B} (m : M A) (k : A -> M B) : M B :=
  fun s =>
    match m s with
    | (Returned a, s') => k a s'
    | (Failed e, s') => (Failed e, s')
    | (Panicked msg, s') => (Panicked msg, s')
    | (Exited code, s') => (Exited code, s')
    end.

Notation "x <~ m ; k" := (bind m (fun x => k))
  (at level 20, m at level 100, k at level 200,
   format "'[v' x  <~  m  ;  '/' k ']'").
Notation "'exec' m ; k" := (bind m (fun _ => k))
  (at level 10, m at level 100, k at level 200,
   format "'[v' 'exec'  m  ;  '/' k ']'").

Definition fail {A} (e : error) : M A := fun s => (Failed e, s).
Definition panic {A} (msg : string) : M A := fun s => (Panicked msg, s).
Definition exit {A} (code : Z) : M A := fun s => (Exited code, s).

Definition getEnv : M ExecutionEnvironment := fun s => (Returned (ee s), s).

Definition modifyEnv (f : ExecutionEnvironment -> ExecutionEnvironment) : M unit :=
  fun s => (Returned tt, {| ee := f (ee s); wire := wire s |}).

(** [v, err := f(...); if err != nil { return nil, err }] *)
Definition try {A} (r : Result A) : M A :=
  match r with
  | Ok a => ret a
  | Err e => fail e
  end.

(** [v, err := f(...); if err != nil { return nil, fmt.Errorf("%w: %s", s, err) }] *)
Definition tryWrap {A} (s : sentinel) (r : Result A) : M A :=
  match r with
  | Ok a => ret a
  | Err e => fail (ErrorfErr s e)
  end.

(** [v, err := f(...); if err != nil { panic(msg) }] *)
Definition orPanic {A} (msg : string) (r : Result A) : M A :=
  match r with
  | Ok a => ret a
  | Err _ => panic msg
  end.

(** Dereferencing a pointer: a nil pointer panics. *)
Definition deref {A} (p : option A) : M A :=
  match p with
  | Some a => ret a
  | None => panic "runtime error: invalid memory address or nil pointer dereference"
  end.

(** The message of the run-time panic of [s[i:]] with [i] past the end of
    [s]: the bounds are the index and the length, in decimal. *)
Definition sliceBoundsError (i : nat) (s : string) : string :=
  "runtime error: slice bounds out of range ["
  +:+ pretty i +:+ ":" +:+ pretty (String.length s) +:+ "]".

(** [s[i:]], which panics when [i] is out of range. *)
Definition slice (i : nat) (s : string) : M string :=
  match sliceFrom i s with
  | Some t => ret t
  | None => panic (sliceBoundsError i s)
  end.

(** A call through [ee.RPCClient]: the request is handed to the transport and
    logged; the transport's error is returned as it is. *)
Definition roundTrip `{Host} (call : RPCCall) : M bytes :=
  fun s =>
    let s' := {| ee := ee s; wire := wire s ++ [call] |} in
    match rpc_RoundTrip (RPCClient (ee s)) (wire s) call with
    | Ok b => (Returned b, s')
    | Err e => (Failed e, s')
    end.

(** [err := f(...); if err != nil { return nil, err }] *)
Definition tryErr (r : option error) : M unit :=
  match r with
  | None => ret tt
  | Some e => fail e
  end.

Definition run {A} (m : M A) (env : ExecutionEnvironment) (log : list RPCCall)
  : Outcome A * Machine :=
  m {| ee := env; wire := log |}.

(* ------------------------------------------------------------------------- *)
(** ** The commands *)
(* ------------------------------------------------------------------------- *)

(** The factories of the static commands; a key missing from [inv.Args]
    reads as the empty string. *)
Definition arg (inv : CommandParseResult) (name : string) : string :=
  default EmptyString (Args inv !! name).

Definition NewBalanceCommand (inv : CommandParseResult) : CLICommand :=
  BalanceCommand (arg inv "address").
Definition NewCreateCommand (inv : CommandParseResult) : CLICommand :=
  CreateCommand (arg inv "filename") (arg inv "password").
Definition NewGenerateKeyCommand (inv : CommandParseResult) : CLICommand :=
  GenerateKeyCommand.
Definition NewInfoCommand (inv : CommandParseResult) : CLICommand :=
  InfoCommand.
Definition NewOpenCommand (inv : CommandParseResult) : CLICommand :=
  OpenCommand (arg inv "filename") (arg inv "password").
Definition NewExitCommand (inv : CommandParseResult) : CLICommand :=
  ExitCommand.
Definition NewReadContractCommand (inv : CommandParseResult) : CLICommand :=
  ReadContractCommand inv.
Definition NewWriteContractCommand (inv : CommandParseResult) : CLICommand :=
  WriteContractCommand inv.

(** [NewRegisterCommand] dereferences the three arguments: [None] stands for
    the panic on one that is missing. *)
Definition NewRegisterCommand (inv : CommandParseResult) : option CLICommand :=
  match Args inv !! "name", Args inv !! "address", Args inv !! "abi-filename" with
  | Some n, Some a, Some f => Some (RegisterCommand n a f)
  | _, _, _ => None
  end.

(** [BuildCommands] constructs the declarations needed by the parser. *)
Definition BuildCommands : list CommandDeclaration :=
  [ NewCommandDeclaration "balance" "Check the balance at an address" false
      NewBalanceCommand [NewCommandArg "address" Address];
    NewCommandDeclaration "create" "Create and open a new wallet file" false
      NewCreateCommand [NewCommandArg "filename" String_; NewCommandArg "password" String_];
    NewCommandDeclaration "generate" "Generate and display a new private key" false
      NewGenerateKeyCommand [];
    NewCommandDeclaration "info" "Show the currently opened wallet's address / key" false
      NewInfoCommand [];
    NewCommandDeclaration "open" "Open a wallet file" false
      NewOpenCommand [NewCommandArg "filename" String_; NewCommandArg "password" String_];
    NewCommandDeclaration "exit" "Exit the wallet (quit also works)" false
      NewExitCommand [];
    NewCommandDeclaration "quit" EmptyString true NewExitCommand [] ].

Section Commands.

Context `{Host}.

(** [(c *BalanceCommand) Execute] *)
Definition BalanceCommand_Execute (address : string) : M ExecutionResult :=
  env <~ getEnv ;
  contractID <~ deref (KoinContractID env) ;
  let params := {| req_ContractID := contractID;
                   req_EntryPoint := KoinBalanceOfEntry env;
                   req_Args := Account_Serialize address |} in
  result <~ roundTrip (CallProcedure ReadContractCall params) ;
  balance <~ try (DeserializeUInt64 result) ;
  dec <~ try (SatoshiToDecimal (int64 balance) KoinPrecision) ;
  ret (AddMessage NewExecutionResult (dec +:+ " " +:+ KoinSymbol)).

(** [(c *ExitCommand) Execute] *)
Definition ExitCommand_Execute : M ExecutionResult := exit 0.

(** [(c *GenerateKeyCommand) Execute] *)
Definition GenerateKeyCommand_Execute : M ExecutionResult :=
  k <~ try GenerateKoinosKey ;
  let result := NewExecutionResult in
  let result := AddMessage result
    "New key generated. This is only shown once, make sure to record this information." in
  let result := AddMessage result ("Address: " +:+ key_Address k) in
  let result := AddMessage result ("Private: " +:+ key_Private k) in
  ret result.

(** [(c *CreateCommand) Execute] *)
Definition CreateCommand_Execute (Filename Password : string) : M ExecutionResult :=
  if negb (IsNotExist (os_Stat Filename))
  then fail (Errorf ErrWalletExists Filename)
  else
    file <~ try (os_Create Filename) ;
    key <~ try GenerateKoinosKey ;
    exec tryErr (CreateWalletFile file Password (key_PrivateBytes key)) ;
    exec modifyEnv (set_Key (Some key)) ;
    let result := NewExecutionResult in
    let result := AddMessage result ("Created and opened new wallet: " +:+ Filename) in
    let result := AddMessage result "Use the info command to see details" in
    ret result.

(** [(c *InfoCommand) Execute] *)
Definition InfoCommand_Execute : M ExecutionResult :=
  env <~ getEnv ;
  if negb (IsWalletOpen env)
  then fail (Errorf ErrWalletClosed "cannot show info")
  else
    key <~ deref (Key env) ;
    let result := NewExecutionResult in
    let result := AddMessage result "Wallet information:" in
    let result := AddMessage result ("Address: " +:+ key_Address key) in
    let result := AddMessage result ("Private: " +:+ key_Private key) in
    ret result.

(** [(c *OpenCommand) Execute] *)
Definition OpenCommand_Execute (Filename Password : string) : M ExecutionResult :=
  file <~ try (os_Open Filename) ;
  keyBytes <~
    match ReadWalletFile file Password with
    | Ok b => ret b
    | Err _ => fail (Errorf ErrWalletDecrypt "check your password")
    end ;
  key <~ try (NewKoinosKeysFromBytes keyBytes) ;
  exec modifyEnv (set_Key (Some key)) ;
  let result := NewExecutionResult in
  let result := AddMessage result ("Opened wallet: " +:+ Filename) in
  ret result.

(** [ee.Contracts.Add(name, address, &abi, fDesc)]; the call's result is
    not looked at. *)
Definition Contracts_Add (name address : string) (abi : ABI) (fd : FileDescriptor)
  : M unit :=
  modifyEnv (fun env => set_Contracts (fst (Add (Contracts env) name address abi fd)) env).

(** [ee.Parser.Commands.AddCommand(cmd)] *)
Definition Parser_AddCommand (cmd : CommandDeclaration) : M unit :=
  modifyEnv (fun env =>
    set_Parser {| Commands := AddCommand (Commands (Parser env)) cmd |} env).

(** The declaration the register command makes of one method. *)
Definition methodCommand (contractName : string) (method : ABIMethod)
    (params : list CommandArg) : CommandDeclaration :=
  let commandName := contractName +:+ "." +:+ m_Name method in
  if m_ReadOnly method
  then NewCommandDeclaration commandName (m_Description method) false
         NewReadContractCommand params
  else NewCommandDeclaration commandName (m_Description method) false
         NewWriteContractCommand params.

(** The loop of [(c *RegisterCommand) Execute] over [abi.Methods]. *)
Fixpoint registerMethods (Name : string) (fDesc : FileDescriptor)
    (methods : list ABIMethod) : M unit :=
  match methods with
  | [] => ret tt
  | method :: rest =>
      d <~ match ByName (file_Messages fDesc) (m_Argument method) with
           | Some d => ret d
           | None => fail (Errorf ErrInvalidABI
                             ("could not find type " +:+ m_Argument method))
           end ;
      params <~ tryWrap ErrInvalidABI (ParseABIFields d) ;
      exec Parser_AddCommand (methodCommand Name method params) ;
      registerMethods Name fDesc rest
  end.

(** [(c *RegisterCommand) Execute]. With exactly one file in [files],
    the callback handed to [RangeFiles] leaves that file in [fDesc]. *)
Definition RegisterCommand_Execute (Name Address ABIFilename : string)
  : M ExecutionResult :=
  env <~ getEnv ;
  if Contains (Contracts env) Name
  then fail (Errorf ErrContract ("contract " +:+ Name +:+ " already exists"))
  else
    jsonFile <~ tryWrap ErrInvalidABI (os_Open ABIFilename) ;
    jsonBytes <~ tryWrap ErrInvalidABI (ioutil_ReadAll jsonFile) ;
    abi <~ tryWrap ErrInvalidABI (json_Unmarshal jsonBytes) ;
    fds <~ tryWrap ErrInvalidABI (proto_Unmarshal_FileDescriptorSet (abi_Types abi)) ;
    let files := protodesc_NewFiles fds in
    match files with
    | [fDesc] =>
        exec Contracts_Add Name Address abi fDesc ;
        exec registerMethods Name fDesc (abi_Methods abi) ;
        let er := NewExecutionResult in
        let er := AddMessage er
          ("Contract '" +:+ Name +:+ "' at address " +:+ Address +:+ " registered.") in
        ret er
    | _ =>
        fail (Errorf ErrInvalidABI
                ("expected 1 descriptor, got " +:+ pretty (length files)))
    end.

(** [strconv.ParseInt(method.EntryPoint[2:], 16, 32)] with the two checks
    around it: the slice panics on an entry point shorter than two bytes,
    and a parse error is returned as it is. *)
Definition parseEntryPoint (EntryPoint : string) : M Z :=
  digits <~ slice 2 EntryPoint ;
  match strconv.ParseInt digits 16 32 with
  | (entryPoint, None) => ret entryPoint
  | (_, Some err) => fail err
  end.

(** The last steps of a read: the response is decoded against the return
    descriptor and rendered as text. *)
Definition decodeAndRender (md : MessageDescriptor) (result : bytes)
  : M ExecutionResult :=
  let dMsg := NewMessage md in
  dMsg <~ try (proto_Unmarshal result dMsg) ;
  let er := NewExecutionResult in
  b <~ try (prototext_Marshal dMsg) ;
  ret (AddMessage er b).

(** The steps of [(c *ReadContractCommand) Execute] before the decoding, on
    their own: the request is built and made, and the method's return
    descriptor is looked up. [ReadContractCommand_Execute_split] relates the
    two. *)
Definition readRequest (ParseResult : CommandParseResult)
  : M (bytes * MessageDescriptor) :=
  env <~ getEnv ;
  let contract := GetFromMethodName (Contracts env) (CommandName ParseResult) in
  method <~ deref (GetMethod (Contracts env) (CommandName ParseResult)) ;
  entryPoint <~ parseEntryPoint (m_EntryPoint method) ;
  msg <~ tryWrap ErrInvalidABI (ParseResultToMessage ParseResult (Contracts env)) ;
  argBytes <~ try (proto_Marshal msg) ;
  contract <~ deref contract ;
  contractID <~ orPanic "Invalid contract ID" (HexStringToBytes (c_Address contract)) ;
  cResp <~ roundTrip (CallReadContract argBytes contractID (uint32 entryPoint)) ;
  md <~ try (GetMethodReturn (Contracts env) (CommandName ParseResult)) ;
  ret (cResp, md).

(** [(c *ReadContractCommand) Execute] *)
Definition ReadContractCommand_Execute (ParseResult : CommandParseResult)
  : M ExecutionResult :=
  env <~ getEnv ;
  let contract := GetFromMethodName (Contracts env) (CommandName ParseResult) in
  method <~ deref (GetMethod (Contracts env) (CommandName ParseResult)) ;
  entryPoint <~ parseEntryPoint (m_EntryPoint method) ;
  msg <~ tryWrap ErrInvalidABI (ParseResultToMessage ParseResult (Contracts env)) ;
  argBytes <~ try (proto_Marshal msg) ;
  contract <~ deref contract ;
  contractID <~ orPanic "Invalid contract ID" (HexStringToBytes (c_Address contract)) ;
  cResp <~ roundTrip (CallReadContract argBytes contractID (uint32 entryPoint)) ;
  md <~ try (GetMethodReturn (Contracts env) (CommandName ParseResult)) ;
  decodeAndRender md cResp.

(** [(c *WriteContractCommand) Execute] *)
Definition WriteContractCommand_Execute (ParseResult : CommandParseResult)
  : M ExecutionResult :=
  env <~ getEnv ;
  let contract := GetFromMethodName (Contracts env) (CommandName ParseResult) in
  method <~ deref (GetMethod (Contracts env) (CommandName ParseResult)) ;
  entryPoint <~ parseEntryPoint (m_EntryPoint method) ;
  msg <~ tryWrap ErrInvalidABI (ParseResultToMessage ParseResult (Contracts env)) ;
  contract <~ deref contract ;
  contractID <~ orPanic "Invalid contract ID" (HexStringToBytes (c_Address contract)) ;
  exec roundTrip (CallWriteMessageContract msg (Key env) contractID (uint32 entryPoint)) ;
  let er := NewExecutionResult in
  let er := AddMessage er
    ("Transaction submitted to contract '" +:+ c_Name contract +:+
     "' at address " +:+ c_Address contract +:+ " .") in
  ret er.

(** The [Execute] method of the [CLICommand] interface. *)
Definition Execute (c : CLICommand) : M ExecutionResult :=
  match c with
  | BalanceCommand a => BalanceCommand_Execute a
  | ExitCommand => ExitCommand_Execute
  | GenerateKeyCommand => GenerateKeyCommand_Execute
  | CreateCommand f p => CreateCommand_Execute f p
  | InfoCommand => InfoCommand_Execute
  | OpenCommand f p => OpenCommand_Execute f p
  | RegisterCommand n a f => RegisterCommand_Execute n a f
  | ReadContractCommand inv => ReadContractCommand_Execute inv
  | WriteContractCommand inv => WriteContractCommand_Execute inv
  end.

End Commands.

(* ------------------------------------------------------------------------- *)
(** ** Notions the properties are stated with *)
(* ------------------------------------------------------------------------- *)

(** [keeps f m]: whatever way [m] ends, the part [f] of the execution
    environment is afterwards what it was. *)
Definition keeps {X A} (f : ExecutionEnvironment -> X) (m : M A) : Prop :=
  forall s, f (ee (snd (m s))) = f (ee s).

(** The contract [register] stores. *)
Definition newContract (Name Address : string) (abi : ABI) (fDesc : FileDescriptor)
  : Contract :=
  {| c_Name := Name; c_Address := Address; c_ABI := abi; c_File := fDesc |}.

(** [compiles fDesc method params]: the loop's two checks pass for [method],
    with [params] the arguments derived from its argument type. *)
Definition compiles `{Host} (fDesc : FileDescriptor) (method : ABIMethod)
    (params : list CommandArg) : Prop :=
  exists d, ByName (file_Messages fDesc) (m_Argument method) = Some d /\
            ParseABIFields d = Ok params.

(** The number a string of hexadecimal digits denotes, most significant
    digit first; [None] for the empty string and for a string with another
    character. *)
Fixpoint hexNumberFrom (acc : Z) (s : string) : option Z :=
  match s with
  | EmptyString => Some acc
  | String c rest =>
      match hexVal c with
      | Some d => hexNumberFrom (acc * 16 + Z.of_N d) rest
      | None => None
      end
  end.

Definition hexNumber (s : string) : option Z :=
  match s with
  | EmptyString => None
  | _ => hexNumberFrom 0 s
  end.

(** A synthesized contract command: the read one or the write one. *)
Definition contractCommand (readOnly : bool) (inv : CommandParseResult) : CLICommand :=
  if readOnly then ReadContractCommand inv else WriteContractCommand inv.

(** [s] without its sign, if it starts with one. *)
Definition unsigned (s : string) : string :=
  match s with
  | EmptyString => s
  | String c rest =>
      if Ascii.eqb c "+" || Ascii.eqb c "-" then rest else s
  end.


(* ------------------------------------------------------------------------- *)
(** ** A small world for the examples *)
(* ------------------------------------------------------------------------- *)

(** Modelled from the spec: [ParseABIFields], which is defined outside the
    files modelled here, as the specification describes the derivation of the argument
    list: one entry per schema field, in declaration order, named after the
    field and tagged [String]. The commands are stated over any [Host]; this
    one is the [ParseABIFields] of the example host. *)
Definition ParseABIFields_spec (d : MessageDescriptor) : Result (list CommandArg) :=
  Ok (map (fun f => NewCommandArg (fd_Name f) String_) (md_Fields d)).

Module Demo.

Definition text (s : string) : bytes := list_byte_of_string s.

Definition schema : FileDescriptor :=
  {| file_Path := "token.proto";
     file_Messages :=
       [ {| md_Name := "balance_of_args";
            md_Fields := [ {| fd_Name := "owner"; fd_Kind := BytesKind |} ] |};
         {| md_Name := "balance_of_result";
            md_Fields := [ {| fd_Name := "value"; fd_Kind := Uint64Kind |} ] |};
         {| md_Name := "transfer_args";
            md_Fields := [ {| fd_Name := "to"; fd_Kind := BytesKind |};
                           {| fd_Name := "amount"; fd_Kind := Uint64Kind |} ] |};
         {| md_Name := "transfer_result"; md_Fields := [] |} ] |}.

Definition balance_of : ABIMethod :=
  {| m_Name := "balance_of"; m_Description := "Balance of an owner";
     m_EntryPoint := "0x10"; m_Argument := "balance_of_args";
     m_Return := "balance_of_result"; m_ReadOnly := true |}.

Definition transfer : ABIMethod :=
  {| m_Name := "transfer"; m_Description := "Transfer tokens";
     m_EntryPoint := "0x20"; m_Argument := "transfer_args";
     m_Return := "transfer_result"; m_ReadOnly := false |}.

(** A method whose argument type the schema does not declare. *)
Definition mint : ABIMethod :=
  {| m_Name := "mint"; m_Description := "Mint tokens";
     m_EntryPoint := "0x30"; m_Argument := "mint_args";
     m_Return := "mint_result"; m_ReadOnly := false |}.

(** The ABI documents of the example file system, by the text of the file. *)
Definition documents : list (string * ABI) :=
  [ ("token", {| abi_Methods := [balance_of; transfer]; abi_Types := text "one-file" |});
    ("broken", {| abi_Methods := [balance_of; mint; transfer]; abi_Types := text "one-file" |});
    ("empty", {| abi_Methods := [balance_of]; abi_Types := text "no-file" |});
    ("pair", {| abi_Methods := [balance_of]; abi_Types := text "two-files" |});
    ("garbled", {| abi_Methods := [balance_of]; abi_Types := text "?" |});
    ("twice", {| abi_Methods := [balance_of; balance_of]; abi_Types := text "one-file" |}) ].

Definition schemaSets : list (string * FileDescriptorSet) :=
  [ ("one-file", [schema]);
    ("no-file", []);
    ("two-files", [schema; {| file_Path := "other.proto"; file_Messages := [] |}]) ].

Definition lookup {A} (table : list (string * A)) (k : string) : option A :=
  snd <$> find (fun e => String.eqb (fst e) k) table.

Definition orErr {A} (msg : string) (o : option A) : Result A :=
  match o with
  | Some a => Ok a
  | None => Err (Opaque msg)
  end.

(** The file [<name>.abi] holds the document [<name>]; [wallet.dat] is a
    wallet file, encrypted with the password ["secret"]. *)
Definition files : list (string * bytes) :=
  [ ("token.abi", text "token"); ("broken.abi", text "broken");
    ("empty.abi", text "empty"); ("pair.abi", text "pair");
    ("garbled.abi", text "garbled"); ("twice.abi", text "twice");
    ("wallet.dat", text "k") ].

Definition bigEndian (b : bytes) : Z :=
  fold_left (fun n x => 256 * n + Z.of_N (Byte.to_N x)) b 0.

Definition encode (inv : CommandParseResult) (cs : gmap string Contract)
  : Result Message :=
  match GetFromMethodName cs (CommandName inv), GetMethod cs (CommandName inv) with
  | Some c, Some m =>
      match ByName (file_Messages (c_File c)) (m_Argument m) with
      | Some d =>
          match mapM (fun f => (fun v => (fd_Name f, VString v)) <$> Args inv !! fd_Name f)
                     (md_Fields d) with
          | Some fields => Ok {| msg_Descriptor := d; msg_Fields := fields |}
          | None => Err (Opaque "missing parameter")
          end
      | None => Err (Opaque "unknown type")
      end
  | _, _ => Err (Opaque "unknown method")
  end.

Definition render (v : Value) : string :=
  match v with
  | VBool b => if b then "true" else "false"
  | VInt n => pretty n
  | VString s => s
  | VBytes b => string_of_list_byte b
  end.

#[global] Instance host : Host := {|
  os_Open := fun path =>
    orErr ("open " +:+ path +:+ ": no such file or directory")
          ((fun _ => path) <$> lookup files path);
  os_Stat := fun path =>
    match lookup files path with
    | Some _ => None
    | None => Some (Opaque "no such file or directory")
    end;
  os_IsNotExist := fun e =>
    match e with
    | Opaque msg => String.eqb msg "no such file or directory"
    | _ => false
    end;
  os_Create := fun path => Ok path;
  ioutil_ReadAll := fun file => orErr "read error" (lookup files file);
  json_Unmarshal := fun b =>
    orErr "invalid character" (lookup documents (string_of_list_byte b));
  proto_Unmarshal_FileDescriptorSet := fun b =>
    orErr "proto: cannot parse invalid wire-format data"
          (lookup schemaSets (string_of_list_byte b));
  protodesc_NewFiles := fun fds => fds;
  proto_Marshal := fun msg =>
    Ok (concat (map (fun f => text (render (snd f))) (msg_Fields msg)));
  proto_Unmarshal := fun b dMsg =>
    Ok {| msg_Descriptor := msg_Descriptor dMsg;
          msg_Fields :=
            match md_Fields (msg_Descriptor dMsg) with
            | f :: _ => [(fd_Name f, VInt (bigEndian b))]
            | [] => []
            end |};
  prototext_Marshal := fun msg =>
    Ok (String.concat EmptyString (map (fun f => fst f +:+ ": " +:+ render (snd f))
                              (msg_Fields msg)));
  ParseABIFields := ParseABIFields_spec;
  ParseResultToMessage := encode;
  SatoshiToDecimal := fun n _ => Ok (pretty n);
  Account_Serialize := text;
  DeserializeUInt64 := fun b => Ok (bigEndian b);
  GenerateKoinosKey := Ok {| key_PrivateBytes := text "k" |};
  NewKoinosKeysFromBytes := fun b => Ok {| key_PrivateBytes := b |};
  CreateWalletFile := fun _ _ _ => None;
  ReadWalletFile := fun file password =>
    if String.eqb password "secret" then orErr "read error" (lookup files file)
    else Err (Opaque "cipher: message authentication failed");
  key_Address := fun k => string_of_list_byte (key_PrivateBytes k);
  key_Private := fun k => string_of_list_byte (key_PrivateBytes k);
  (* every read answers 500; a write is acknowledged *)
  rpc_RoundTrip := fun _ _ call =>
    match call with
    | CallWriteMessageContract _ _ _ _ => Ok []
    | _ => Ok [x01; xf4]
    end
|}.

(** The environment at start-up: no wallet open, no contract registered,
    the static commands declared. *)
Definition start : ExecutionEnvironment :=
  {| RPCClient := {| rpc_Endpoint := "http://localhost:8080" |};
     KoinContractID := Some (text "koin");
     KoinBalanceOfEntry := 21;
     Key := None;
     Contracts := ∅;
     Parser := {| Commands := BuildCommands |} |}.

Definition invocation (name : string) (args : list (string * string))
  : CommandParseResult :=
  {| CommandName := name; Args := list_to_map args |}.

(** The environment after [register token 0x1234 token.abi]. *)
Definition registered : ExecutionEnvironment :=
  ee (snd (run (Execute (RegisterCommand "token" "0x1234" "token.abi")) start [])).

End Demo.

(* ------------------------------------------------------------------------- *)
(** ** Frame reasoning in the execution monad *)
(* ------------------------------------------------------------------------- *)

Create HintDb frame discriminated.

Section Frame.

Context {X : Type} (f : ExecutionEnvironment -> X).

Lemma keeps_ret {A} (a : A) : keeps f (ret a).
Proof. intros s. reflexivity. Qed.

Lemma keeps_fail {A} e : keeps f (@fail A e).
Proof. intros s. reflexivity. Qed.

Lemma keeps_panic {A} msg : keeps f (@panic A msg).
Proof. intros s. reflexivity. Qed.

Lemma keeps_exit {A} code : keeps f (@exit A code).
Proof. intros s. reflexivity. Qed.

Lemma keeps_getEnv : keeps f getEnv.
Proof. intros s. reflexivity. Qed.

Lemma keeps_bind {A B} (m : M A) (k : A -> M B) :
  keeps f m -> (forall a, keeps f (k a)) -> keeps f (bind m k).
Proof.
  intros Hm Hk s. unfold bind. specialize (Hm s).
  destruct (m s) as [[a | e | msg | code] s']; simpl in *; try exact Hm.
  rewrite Hk. exact Hm.
Qed.

Lemma keeps_modifyEnv g : (forall env, f (g env) = f env) -> keeps f (modifyEnv g).
Proof. intros Hg s. simpl. apply Hg. Qed.

Lemma keeps_try {A} (r : Result A) : keeps f (try r).
Proof. destruct r; intros s; reflexivity. Qed.

Lemma keeps_tryWrap {A} w (r : Result A) : keeps f (tryWrap w r).
Proof. destruct r; intros s; reflexivity. Qed.

Lemma keeps_tryErr r : keeps f (tryErr r).
Proof. destruct r; intros s; reflexivity. Qed.

Lemma keeps_orPanic {A} msg (r : Result A) : keeps f (orPanic msg r).
Proof. destruct r; intros s; reflexivity. Qed.

Lemma keeps_deref {A} (p : option A) : keeps f (deref p).
Proof. destruct p; intros s; reflexivity. Qed.

Lemma keeps_slice i str : keeps f (slice i str).
Proof. unfold slice. destruct (sliceFrom i str) as [t |]; intros s; reflexivity. Qed.

Lemma keeps_roundTrip `{Host} call : keeps f (roundTrip call).
Proof.
  intros s. unfold roundTrip.
  destruct (rpc_RoundTrip _ _ _); reflexivity.
Qed.

Lemma keeps_parseEntryPoint str : keeps f (parseEntryPoint str).
Proof.
  unfold parseEntryPoint. apply keeps_bind; [apply keeps_slice |].
  intros digits. destruct (strconv.ParseInt digits 16 32) as [n [e |]].
  - apply keeps_fail.
  - apply keeps_ret.
Qed.

End Frame.

#[export] Hint Resolve keeps_ret keeps_fail keeps_panic keeps_exit keeps_getEnv
  keeps_try keeps_tryWrap keeps_tryErr keeps_orPanic keeps_deref keeps_slice
  keeps_roundTrip keeps_parseEntryPoint : frame.

(** Applies the frame lemmas along the binds of a command. *)
Ltac frame :=
  repeat first
    [ apply keeps_bind; [ | intros ? ]
    | solve [ auto with frame ]
    | apply keeps_modifyEnv; intros ?; reflexivity
    | match goal with
      | |- keeps _ (if ?b then _ else _) => destruct b
      | |- keeps _ (match ?x with _ => _ end) => destruct x
      end ].

Section FrameOfCommands.

Context `{Host} {X : Type} (f : ExecutionEnvironment -> X).

Lemma keeps_decodeAndRender md result : keeps f (decodeAndRender md result).
Proof. unfold decodeAndRender. frame. Qed.

Lemma keeps_ReadContractCommand_Execute inv :
  keeps f (ReadContractCommand_Execute inv).
Proof.
  unfold ReadContractCommand_Execute. frame.
Qed.

Lemma keeps_WriteContractCommand_Execute inv :
  keeps f (WriteContractCommand_Execute inv).
Proof. unfold WriteContractCommand_Execute. frame. Qed.

Lemma keeps_BalanceCommand_Execute address :
  keeps f (BalanceCommand_Execute address).
Proof. unfold BalanceCommand_Execute. frame. Qed.

Lemma keeps_InfoCommand_Execute : keeps f InfoCommand_Execute.
Proof. unfold InfoCommand_Execute. frame. Qed.

Lemma keeps_GenerateKeyCommand_Execute : keeps f GenerateKeyCommand_Execute.
Proof. unfold GenerateKeyCommand_Execute. frame. Qed.

Lemma keeps_ExitCommand_Execute : keeps f ExitCommand_Execute.
Proof. unfold ExitCommand_Execute. frame. Qed.

(** Open and create write the key and nothing else. *)
Lemma keeps_OpenCommand_Execute Filename Password :
  (forall k env, f (set_Key k env) = f env) ->
  keeps f (OpenCommand_Execute Filename Password).
Proof.
  intros Hf. unfold OpenCommand_Execute. frame.
  apply keeps_modifyEnv. intros env. apply Hf.
Qed.

Lemma keeps_CreateCommand_Execute Filename Password :
  (forall k env, f (set_Key k env) = f env) ->
  keeps f (CreateCommand_Execute Filename Password).
Proof.
  intros Hf. unfold CreateCommand_Execute. frame.
  apply keeps_modifyEnv. intros env. apply Hf.
Qed.

(** Register writes the registry and the parser and nothing else. *)
Lemma keeps_registerMethods Name fDesc methods :
  (forall p env, f (set_Parser p env) = f env) ->
  keeps f (registerMethods Name fDesc methods).
Proof.
  intros Hf. induction methods as [| method rest IH]; simpl.
  - apply keeps_ret.
  - frame; try apply IH.
    all: apply keeps_modifyEnv; intros env; apply Hf.
Qed.

Lemma keeps_RegisterCommand_Execute Name Address ABIFilename :
  (forall p env, f (set_Parser p env) = f env) ->
  (forall c env, f (set_Contracts c env) = f env) ->
  keeps f (RegisterCommand_Execute Name Address ABIFilename).
Proof.
  intros Hp Hc. unfold RegisterCommand_Execute. frame.
  all: try (apply keeps_registerMethods; exact Hp).
  all: apply keeps_modifyEnv; intros env; apply Hc.
Qed.

End FrameOfCommands.


(* ------------------------------------------------------------------------- *)
(** ** Wallet commands: the key is written last *)
(* ------------------------------------------------------------------------- *)

Section Wallet.

Context `{Host}.

Lemma OpenCommand_Execute_run Filename Password env log :
  match run (OpenCommand_Execute Filename Password) env log with
  | (Returned _, s) =>
      exists file keyBytes key,
        os_Open Filename = Ok file /\
        ReadWalletFile file Password = Ok keyBytes /\
        NewKoinosKeysFromBytes keyBytes = Ok key /\
        s = {| ee := set_Key (Some key) env; wire := log |}
  | (_, s) => s = {| ee := env; wire := log |}
  end.
Proof.
  unfold run, OpenCommand_Execute, bind.
  destruct (os_Open Filename) as [file | e] eqn:Hopen; simpl; [| reflexivity].
  destruct (ReadWalletFile file Password) as [keyBytes | e] eqn:Hread; simpl;
    [| reflexivity].
  destruct (NewKoinosKeysFromBytes keyBytes) as [key | e] eqn:Hkey; simpl;
    [| reflexivity].
  exists file, keyBytes, key. auto.
Qed.

Lemma CreateCommand_Execute_run Filename Password env log :
  match run (CreateCommand_Execute Filename Password) env log with
  | (Returned _, s) =>
      exists file key,
        IsNotExist (os_Stat Filename) = true /\
        os_Create Filename = Ok file /\
        GenerateKoinosKey = Ok key /\
        CreateWalletFile file Password (key_PrivateBytes key) = None /\
        s = {| ee := set_Key (Some key) env; wire := log |}
  | (_, s) => s = {| ee := env; wire := log |}
  end.
Proof.
  unfold run, CreateCommand_Execute, bind.
  destruct (IsNotExist (os_Stat Filename)) eqn:Hstat; simpl; [| reflexivity].
  destruct (os_Create Filename) as [file | e] eqn:Hcreate; simpl; [| reflexivity].
  destruct GenerateKoinosKey as [key | e] eqn:Hgen; simpl; [| reflexivity].
  destruct (CreateWalletFile file Password (key_PrivateBytes key)) as [e |] eqn:Hw;
    simpl; [reflexivity |].
  exists file, key. auto.
Qed.

End Wallet.

(** C10. Open and create write the key last. However the open command or
    the create command ends short of returning its result (the wallet file
    is missing, it cannot be decrypted, it exists already, it cannot be
    created or written, or the key cannot be constructed), the execution
    environment, [ee.Key] included, is what it was. When the command returns
    its result, the wallet file was read (or created and written) and the
    key constructed, and that key is what [ee.Key] now holds. *)
Theorem C10_open_create_write_key_last `{Host} Filename Password env log :
  match run (Execute (OpenCommand Filename Password)) env log with
  | (Returned _, s) =>
      exists file keyBytes key,
        os_Open Filename = Ok file /\
        ReadWalletFile file Password = Ok keyBytes /\
        NewKoinosKeysFromBytes keyBytes = Ok key /\
        s = {| ee := set_Key (Some key) env; wire := log |}
  | (_, s) => s = {| ee := env; wire := log |}
  end
  /\
  match run (Execute (CreateCommand Filename Password)) env log with
  | (Returned _, s) =>
      exists file key,
        IsNotExist (os_Stat Filename) = true /\
        os_Create Filename = Ok file /\
        GenerateKoinosKey = Ok key /\
        CreateWalletFile file Password (key_PrivateBytes key) = None /\
        s = {| ee := set_Key (Some key) env; wire := log |}
  | (_, s) => s = {| ee := env; wire := log |}
  end.
Proof.
  split.
  - apply OpenCommand_Execute_run.
  - apply CreateCommand_Execute_run.
Qed.

(* ------------------------------------------------------------------------- *)
(** ** Which command writes which part of the environment *)
(* ------------------------------------------------------------------------- *)

(** Closes a frame goal about one command with that command's lemma. *)
Ltac command_frame f :=
  first
    [ apply (keeps_BalanceCommand_Execute f)
    | apply (keeps_ExitCommand_Execute f)
    | apply (keeps_GenerateKeyCommand_Execute f)
    | apply (keeps_InfoCommand_Execute f)
    | apply (keeps_ReadContractCommand_Execute f)
    | apply (keeps_WriteContractCommand_Execute f)
    | apply (keeps_OpenCommand_Execute f); reflexivity
    | apply (keeps_CreateCommand_Execute f); reflexivity
    | apply (keeps_RegisterCommand_Execute f); reflexivity ].

(** C9. A read-class command, the synthesized read-contract command or the
    balance command, leaves every field of the execution environment as it
    was, however it ends. More generally only the open and the create command
    can change the key, and only the register command can change the contract
    registry or the parser's command set. *)
Theorem C9_read_class_commands_keep_environment `{Host} env log :
  (forall inv, ee (snd (run (Execute (ReadContractCommand inv)) env log)) = env) /\
  (forall address, ee (snd (run (Execute (BalanceCommand address)) env log)) = env) /\
  (forall c,
     match c with
     | OpenCommand _ _ | CreateCommand _ _ => True
     | _ => Key (ee (snd (run (Execute c) env log))) = Key env
     end) /\
  (forall c,
     match c with
     | RegisterCommand _ _ _ => True
     | _ => Contracts (ee (snd (run (Execute c) env log))) = Contracts env /\
            Parser (ee (snd (run (Execute c) env log))) = Parser env
     end).
Proof.
  repeat split.
  - intros inv. apply (keeps_ReadContractCommand_Execute (fun e => e)).
  - intros address. apply (keeps_BalanceCommand_Execute (fun e => e)).
  - intros c. destruct c; simpl; trivial; command_frame Key.
  - intros c. destruct c; simpl; trivial; split;
      first [reflexivity | command_frame Contracts | command_frame Parser].
Qed.

(* ------------------------------------------------------------------------- *)
(** ** The register command *)
(* ------------------------------------------------------------------------- *)

Section Register.

Context `{Host}.

Lemma Add_fresh cs Name Address abi fDesc :
  Contains cs Name = false ->
  fst (Add cs Name Address abi fDesc) = <[Name := newContract Name Address abi fDesc]> cs.
Proof. intros Hc. unfold Add. rewrite Hc. reflexivity. Qed.

(** Up to the count of the schema files, a register whose ABI document loads
    touches nothing. *)
Lemma RegisterCommand_Execute_loaded Name Address ABIFilename env log
    jsonFile jsonBytes abi fds :
  Contains (Contracts env) Name = false ->
  os_Open ABIFilename = Ok jsonFile ->
  ioutil_ReadAll jsonFile = Ok jsonBytes ->
  json_Unmarshal jsonBytes = Ok abi ->
  proto_Unmarshal_FileDescriptorSet (abi_Types abi) = Ok fds ->
  run (RegisterCommand_Execute Name Address ABIFilename) env log =
  match protodesc_NewFiles fds with
  | [fDesc] =>
      run (exec Contracts_Add Name Address abi fDesc ;
           exec registerMethods Name fDesc (abi_Methods abi) ;
           ret (AddMessage NewExecutionResult
                  ("Contract '" +:+ Name +:+ "' at address " +:+ Address
                   +:+ " registered."))) env log
  | files =>
      (Failed (Errorf ErrInvalidABI
                 ("expected 1 descriptor, got " +:+ pretty (length files))),
       {| ee := env; wire := log |})
  end.
Proof.
  intros Hfresh Hopen Hread Hjson Hproto.
  unfold run, RegisterCommand_Execute, bind at 1, getEnv; simpl.
  rewrite Hfresh. unfold bind at 1. rewrite Hopen; simpl.
  unfold bind at 1. rewrite Hread; simpl.
  unfold bind at 1. rewrite Hjson; simpl.
  unfold bind at 1. rewrite Hproto; simpl.
  destruct (protodesc_NewFiles fds) as [| fDesc [| other rest]]; reflexivity.
Qed.

(** Whatever becomes of the methods, the contract has been added. *)
Lemma registered_before_methods Name Address abi fDesc env log (er : ExecutionResult) :
  Contains (Contracts env) Name = false ->
  Contracts (ee (snd (run (exec Contracts_Add Name Address abi fDesc ;
                           exec registerMethods Name fDesc (abi_Methods abi) ;
                           ret er) env log)))
  = <[Name := newContract Name Address abi fDesc]> (Contracts env).
Proof.
  intros Hfresh. unfold run, bind at 1. simpl.
  match goal with
  | |- Contracts (ee (snd (bind ?m ?k ?s))) = _ =>
      assert (Hk : keeps Contracts (bind m k))
        by (apply keeps_bind;
            [apply keeps_registerMethods; reflexivity | intros ?; apply keeps_ret]);
      rewrite (Hk s)
  end.
  simpl. apply Add_fresh. exact Hfresh.
Qed.

End Register.

Section RegisterLoop.

Context `{Host}.

Lemma decl_Name_methodCommand Name method params :
  decl_Name (methodCommand Name method params) = Name +:+ "." +:+ m_Name method.
Proof. unfold methodCommand. destruct (m_ReadOnly method); reflexivity. Qed.

Lemma methodCommand_fields Name method params :
  let d := methodCommand Name method params in
  decl_Description d = m_Description method /\
  decl_Instantiation d =
    (if m_ReadOnly method then NewReadContractCommand else NewWriteContractCommand) /\
  decl_Args d = params /\
  decl_Hidden d = false.
Proof. unfold methodCommand. destruct (m_ReadOnly method); simpl; auto. Qed.

Lemma qualified_inj Name a b :
  Name +:+ "." +:+ a = Name +:+ "." +:+ b -> a = b.
Proof.
  intros Heq. apply (inj (String.app Name)) in Heq.
  apply (inj (String.app ".")) in Heq. exact Heq.
Qed.

Lemma hasCommand_app cs cs' name :
  hasCommand (cs ++ cs') name = hasCommand cs name || hasCommand cs' name.
Proof. unfold hasCommand. apply existsb_app. Qed.

Lemma AddCommand_fresh cs decl :
  hasCommand cs (decl_Name decl) = false -> AddCommand cs decl = cs ++ [decl].
Proof. intros Hf. unfold AddCommand. rewrite Hf. reflexivity. Qed.

(** The loop over methods that all compile, under names that are new to the
    command set and differ from one another: every declaration is appended,
    in the order of the methods. *)
Lemma registerMethods_installs Name fDesc methods : forall paramss env log,
  Forall2 (compiles fDesc) methods paramss ->
  NoDup (map m_Name methods) ->
  Forall (fun m => hasCommand (Commands (Parser env)) (Name +:+ "." +:+ m_Name m) = false)
         methods ->
  run (registerMethods Name fDesc methods) env log =
  (Returned tt,
   {| ee := set_Parser
              {| Commands := Commands (Parser env)
                             ++ zip_with (methodCommand Name) methods paramss |} env;
      wire := log |}).
Proof.
  induction methods as [| method rest IH]; intros paramss env log Hall Hnodup Hfresh.
  - apply Forall2_nil_inv_l in Hall. subst paramss. simpl.
    rewrite app_nil_r. unfold run, ret.
    destruct env as [? ? ? ? ? [cmds]]. reflexivity.
  - apply Forall2_cons_inv_l in Hall as (params & paramss' & Hm & Hrest & ->).
    destruct Hm as (d & Hd & Hparams).
    apply NoDup_cons in Hnodup as [Hnotin Hnodup].
    apply Forall_cons in Hfresh as [Hfresh1 Hfresh].
    unfold run in *. simpl. unfold bind at 1. rewrite Hd. simpl.
    unfold bind at 1. rewrite Hparams. simpl.
    unfold bind at 1. simpl.
    rewrite AddCommand_fresh
      by (rewrite decl_Name_methodCommand; exact Hfresh1).
    rewrite (IH paramss'); [| exact Hrest | exact Hnodup |].
    + simpl. rewrite <- app_assoc. reflexivity.
    + simpl. apply Forall_forall. intros m Hin.
      rewrite hasCommand_app.
      rewrite Forall_forall in Hfresh. rewrite (Hfresh m Hin). simpl.
      rewrite decl_Name_methodCommand, orb_false_r.
      apply String.eqb_neq. intros Heq. apply qualified_inj in Heq.
      apply Hnotin. rewrite Heq. apply list_elem_of_fmap_2. exact Hin.
Qed.

End RegisterLoop.

(** C6. Registering a contract under a name the registry already holds fails
    with the contract-exists error ([util.ErrContract], "contract <name>
    already exists"), and the execution environment is what it was: the
    registry, the entry of the contract registered first and the commands
    installed for it are unchanged. Nothing is asked of the transport
    either. *)
Theorem C6_register_existing_name_fails_unchanged `{Host}
    Name Address ABIFilename env log :
  Contains (Contracts env) Name = true ->
  run (Execute (RegisterCommand Name Address ABIFilename)) env log
  = (Failed (Errorf ErrContract ("contract " +:+ Name +:+ " already exists")),
     {| ee := env; wire := log |}).
Proof.
  intros Hc. unfold run. simpl. unfold RegisterCommand_Execute, bind, getEnv. simpl.
  rewrite Hc. reflexivity.
Qed.

Lemma C6_register_existing_name_witness :
  Contains (Contracts Demo.registered) "token" = true /\
  run (Execute (RegisterCommand "token" "0xbeef" "token.abi")) Demo.registered []
  = (Failed (Errorf ErrContract "contract token already exists"),
     {| ee := Demo.registered; wire := [] |}).
Proof.
  split.
  - vm_compute. reflexivity.
  - apply (C6_register_existing_name_fails_unchanged "token" "0xbeef" "token.abi").
    vm_compute. reflexivity.
Defined.

(** C7. During registration, once the ABI document is read and parsed, the
    embedded schema-set bytes must decode into exactly one schema file.
    If they do not decode, or decode into a set that links to no file or to
    more than one, the register action fails with [InvalidABI] and the
    execution environment is what it was. With exactly one file the action
    proceeds to the registration: the contract is added to the registry. *)
Theorem C7_schema_set_must_hold_one_file `{Host}
    Name Address ABIFilename env log jsonFile jsonBytes abi :
  Contains (Contracts env) Name = false ->
  os_Open ABIFilename = Ok jsonFile ->
  ioutil_ReadAll jsonFile = Ok jsonBytes ->
  json_Unmarshal jsonBytes = Ok abi ->
  let r := run (Execute (RegisterCommand Name Address ABIFilename)) env log in
  match proto_Unmarshal_FileDescriptorSet (abi_Types abi) with
  | Err e =>
      r = (Failed (ErrorfErr ErrInvalidABI e), {| ee := env; wire := log |})
  | Ok fds =>
      match protodesc_NewFiles fds with
      | [fDesc] =>
          Contracts (ee (snd r))
          = <[Name := newContract Name Address abi fDesc]> (Contracts env)
      | files =>
          r = (Failed (Errorf ErrInvalidABI
                         ("expected 1 descriptor, got " +:+ pretty (length files))),
               {| ee := env; wire := log |})
      end
  end.
Proof.
  intros Hfresh Hopen Hread Hjson r. subst r. simpl Execute.
  destruct (proto_Unmarshal_FileDescriptorSet (abi_Types abi)) as [fds | e] eqn:Hproto.
  - rewrite (RegisterCommand_Execute_loaded _ _ _ _ _ _ _ _ _
               Hfresh Hopen Hread Hjson Hproto).
    destruct (protodesc_NewFiles fds) as [| fDesc [| other rest]]; try reflexivity.
    apply registered_before_methods. exact Hfresh.
  - unfold run, RegisterCommand_Execute, bind at 1, getEnv; simpl.
    rewrite Hfresh. unfold bind at 1. rewrite Hopen; simpl.
    unfold bind at 1. rewrite Hread; simpl.
    unfold bind at 1. rewrite Hjson; simpl.
    unfold bind at 1. rewrite Hproto; simpl. reflexivity.
Qed.

Lemma C7_schema_set_witness :
  run (Execute (RegisterCommand "pair" "0x1234" "pair.abi")) Demo.start []
  = (Failed (Errorf ErrInvalidABI "expected 1 descriptor, got 2"),
     {| ee := Demo.start; wire := [] |}) /\
  run (Execute (RegisterCommand "empty" "0x1234" "empty.abi")) Demo.start []
  = (Failed (Errorf ErrInvalidABI "expected 1 descriptor, got 0"),
     {| ee := Demo.start; wire := [] |}) /\
  run (Execute (RegisterCommand "garbled" "0x1234" "garbled.abi")) Demo.start []
  = (Failed (ErrorfErr ErrInvalidABI
               (Opaque "proto: cannot parse invalid wire-format data")),
     {| ee := Demo.start; wire := [] |}) /\
  Contracts Demo.registered
  = <["token" := newContract "token" "0x1234"
                   {| abi_Methods := [Demo.balance_of; Demo.transfer];
                      abi_Types := Demo.text "one-file" |}
                   Demo.schema]> (Contracts Demo.start).
Proof.
  split; [| split; [| split]].
  - exact (C7_schema_set_must_hold_one_file
             "pair" "0x1234" "pair.abi" Demo.start [] "pair.abi" (Demo.text "pair")
             {| abi_Methods := [Demo.balance_of]; abi_Types := Demo.text "two-files" |}
             eq_refl eq_refl eq_refl eq_refl).
  - exact (C7_schema_set_must_hold_one_file
             "empty" "0x1234" "empty.abi" Demo.start [] "empty.abi" (Demo.text "empty")
             {| abi_Methods := [Demo.balance_of]; abi_Types := Demo.text "no-file" |}
             eq_refl eq_refl eq_refl eq_refl).
  - exact (C7_schema_set_must_hold_one_file
             "garbled" "0x1234" "garbled.abi" Demo.start [] "garbled.abi"
             (Demo.text "garbled")
             {| abi_Methods := [Demo.balance_of]; abi_Types := Demo.text "?" |}
             eq_refl eq_refl eq_refl eq_refl).
  - exact (C7_schema_set_must_hold_one_file
             "token" "0x1234" "token.abi" Demo.start [] "token.abi" (Demo.text "token")
             {| abi_Methods := [Demo.balance_of; Demo.transfer];
                abi_Types := Demo.text "one-file" |}
             eq_refl eq_refl eq_refl eq_refl).
Defined.

(** C5, amended. A valid ABI document with exactly one embedded schema
    file, every method of which compiles (its argument type resolves in the
    schema and its fields parse), registered under a contract name that is
    free and
    with method names that are new to the command set and differ from one
    another: the register action succeeds, adds the contract, and appends
    exactly [len(methods)] declarations to the command set. The i-th one is
    named [<contract>.<method_i>], carries the method's description, and its
    factory is the read-contract command when the method is read-only and the
    write-contract command otherwise. *)
Theorem C5_register_installs_one_command_per_method `{Host}
    Name Address ABIFilename env log jsonFile jsonBytes abi fds fDesc paramss :
  Contains (Contracts env) Name = false ->
  os_Open ABIFilename = Ok jsonFile ->
  ioutil_ReadAll jsonFile = Ok jsonBytes ->
  json_Unmarshal jsonBytes = Ok abi ->
  proto_Unmarshal_FileDescriptorSet (abi_Types abi) = Ok fds ->
  protodesc_NewFiles fds = [fDesc] ->
  Forall2 (compiles fDesc) (abi_Methods abi) paramss ->
  NoDup (map m_Name (abi_Methods abi)) ->
  Forall (fun m => hasCommand (Commands (Parser env)) (Name +:+ "." +:+ m_Name m) = false)
         (abi_Methods abi) ->
  let installed := zip_with (methodCommand Name) (abi_Methods abi) paramss in
  run (Execute (RegisterCommand Name Address ABIFilename)) env log
  = (Returned {| er_Message :=
                   ["Contract '" +:+ Name +:+ "' at address " +:+ Address
                    +:+ " registered."] |},
     {| ee := set_Parser {| Commands := Commands (Parser env) ++ installed |}
                (set_Contracts
                   (<[Name := newContract Name Address abi fDesc]> (Contracts env)) env);
        wire := log |})
  /\ length installed = length (abi_Methods abi)
  /\ forall i method,
       abi_Methods abi !! i = Some method ->
       exists d,
         installed !! i = Some d /\
         decl_Name d = Name +:+ "." +:+ m_Name method /\
         decl_Description d = m_Description method /\
         decl_Instantiation d =
           (if m_ReadOnly method then NewReadContractCommand
            else NewWriteContractCommand).
Proof.
  intros Hfresh Hopen Hread Hjson Hproto Hfiles Hall Hnodup Hnew installed.
  split; [| split].
  - simpl Execute.
    rewrite (RegisterCommand_Execute_loaded _ _ _ _ _ _ _ _ _
               Hfresh Hopen Hread Hjson Hproto), Hfiles.
    unfold run, bind at 1. simpl.
    rewrite (Add_fresh _ _ _ _ _ Hfresh).
    unfold bind at 1.
    pose proof (registerMethods_installs Name fDesc (abi_Methods abi) paramss
                  (set_Contracts
                     (<[Name := newContract Name Address abi fDesc]> (Contracts env)) env)
                  log Hall Hnodup Hnew) as Hloop.
    unfold run in Hloop. rewrite Hloop. reflexivity.
  - subst installed. rewrite length_zip_with.
    apply Forall2_length in Hall. lia.
  - intros i method Hi.
    destruct (Forall2_lookup_l _ _ _ _ _ Hall Hi) as (params & Hp & _).
    exists (methodCommand Name method params). split; [| split; [| split]].
    + subst installed. rewrite lookup_zip_with, Hi. simpl. rewrite Hp. reflexivity.
    + apply decl_Name_methodCommand.
    + apply methodCommand_fields.
    + apply methodCommand_fields.
Qed.

Lemma C5_register_installs_witness :
  run (Execute (RegisterCommand "token" "0x1234" "token.abi")) Demo.start []
  = (Returned {| er_Message := ["Contract 'token' at address 0x1234 registered."] |},
     {| ee := Demo.registered; wire := [] |})
  /\ map decl_Name (Commands (Parser Demo.registered))
     = map decl_Name BuildCommands ++ ["token.balance_of"; "token.transfer"].
Proof.
  split; [| vm_compute; reflexivity].
  refine (proj1 (C5_register_installs_one_command_per_method
            "token" "0x1234" "token.abi" Demo.start [] "token.abi" (Demo.text "token")
            {| abi_Methods := [Demo.balance_of; Demo.transfer];
               abi_Types := Demo.text "one-file" |}
            [Demo.schema] Demo.schema
            [ [NewCommandArg "owner" String_];
              [NewCommandArg "to" String_; NewCommandArg "amount" String_] ]
            eq_refl eq_refl eq_refl eq_refl eq_refl eq_refl _ _ _)).
  - repeat constructor; eexists; split; reflexivity.
  - apply (bool_decide_unpack _). vm_compute. exact I.
  - repeat constructor.
Defined.

(** C5, as the specification states it, fails on a document that names a
    method twice. In the example world [twice.abi] is a sound document with
    one schema file and the two methods [balance_of] and [balance_of], whose
    argument type resolves. Registering it succeeds, yet one command is
    installed, not two: the command set refuses the second declaration of
    [dup.balance_of], and the register command does not look at the
    refusal. *)
Lemma C5_method_named_twice_installs_one_command :
  let r := run (Execute (RegisterCommand "dup" "0x1234" "twice.abi")) Demo.start [] in
  fst r = Returned {| er_Message := ["Contract 'dup' at address 0x1234 registered."] |} /\
  (length <$> (abi_Methods <$> (c_ABI <$> (Contracts (ee (snd r)) !! "dup"))))
  = Some 2%nat /\
  map decl_Name (Commands (Parser (ee (snd r))))
  = map decl_Name (Commands (Parser Demo.start)) ++ ["dup.balance_of"] /\
  length (Commands (Parser (ee (snd r))))
  <> (length (Commands (Parser Demo.start)) + 2)%nat.
Proof. vm_compute. repeat split; try reflexivity. discriminate. Qed.

(* ------------------------------------------------------------------------- *)
(** ** Where the commands fall short of the specification *)
(* ------------------------------------------------------------------------- *)

(** C1. The register action is not atomic. In the example world the document
    [broken.abi] declares three methods, the second with an argument type the
    schema does not have. Registering it fails with [InvalidABI], yet the
    contract has been added to the registry and the command of the first
    method installed; the third method is never reached. A second attempt
    with the sound document [token.abi] is then refused, the name being
    taken. *)
Theorem C1_failed_register_leaves_contract_and_commands :
  let r := run (Execute (RegisterCommand "token" "0x1234" "broken.abi")) Demo.start [] in
  fst r = Failed (Errorf ErrInvalidABI "could not find type mint_args") /\
  Is (Errorf ErrInvalidABI "could not find type mint_args") ErrInvalidABI = true /\
  Contains (Contracts Demo.start) "token" = false /\
  Contains (Contracts (ee (snd r))) "token" = true /\
  map decl_Name (Commands (Parser (ee (snd r))))
  = map decl_Name (Commands (Parser Demo.start)) ++ ["token.balance_of"] /\
  fst (run (Execute (RegisterCommand "token" "0x1234" "token.abi")) (ee (snd r)) [])
  = Failed (Errorf ErrContract "contract token already exists").
Proof. vm_compute. repeat split; reflexivity. Qed.

(** The same for every host: when the first method's argument type is not in
    the schema, the action fails with [InvalidABI] after the contract has
    been added. *)
Lemma register_fails_after_adding `{Host}
    Name Address ABIFilename env log jsonFile jsonBytes abi fds fDesc method rest :
  Contains (Contracts env) Name = false ->
  os_Open ABIFilename = Ok jsonFile ->
  ioutil_ReadAll jsonFile = Ok jsonBytes ->
  json_Unmarshal jsonBytes = Ok abi ->
  proto_Unmarshal_FileDescriptorSet (abi_Types abi) = Ok fds ->
  protodesc_NewFiles fds = [fDesc] ->
  abi_Methods abi = method :: rest ->
  ByName (file_Messages fDesc) (m_Argument method) = None ->
  run (Execute (RegisterCommand Name Address ABIFilename)) env log
  = (Failed (Errorf ErrInvalidABI ("could not find type " +:+ m_Argument method)),
     {| ee := set_Contracts
                (<[Name := newContract Name Address abi fDesc]> (Contracts env)) env;
        wire := log |}).
Proof.
  intros Hfresh Hopen Hread Hjson Hproto Hfiles Hmethods Hmissing.
  simpl Execute.
  rewrite (RegisterCommand_Execute_loaded _ _ _ _ _ _ _ _ _
             Hfresh Hopen Hread Hjson Hproto), Hfiles.
  unfold run, bind at 1. simpl.
  rewrite (Add_fresh _ _ _ _ _ Hfresh), Hmethods.
  unfold bind at 1. simpl. unfold bind at 1. rewrite Hmissing. reflexivity.
Qed.

(** C2. The write-contract command does not look at the wallet. In the
    example world, with the contract [token] registered and no wallet open,
    [token.transfer] does not fail with [WalletClosed]: the request is handed
    to the transport with a nil key, and the command reports the transaction
    as submitted. The info command, in the same state, makes the check and
    fails with [WalletClosed]. *)
Theorem C2_write_without_wallet_reaches_transport :
  let inv := Demo.invocation "token.transfer" [("to", "0xabcd"); ("amount", "5")] in
  let r := run (Execute (WriteContractCommand inv)) Demo.registered [] in
  IsWalletOpen Demo.registered = false /\
  fst (run (Execute InfoCommand) Demo.registered [])
  = Failed (Errorf ErrWalletClosed "cannot show info") /\
  fst r = Returned {| er_Message :=
            ["Transaction submitted to contract 'token' at address 0x1234 ."] |} /\
  wire (snd r)
  = [CallWriteMessageContract
       {| msg_Descriptor :=
            {| md_Name := "transfer_args";
               md_Fields := [ {| fd_Name := "to"; fd_Kind := BytesKind |};
                              {| fd_Name := "amount"; fd_Kind := Uint64Kind |} ] |};
          msg_Fields := [("to", VString "0xabcd"); ("amount", VString "5")] |}
       None [x12; x34] 32].
Proof. vm_compute. repeat split; reflexivity. Qed.

(** The same for every host and every key, nil included: once the method,
    its entry point, the message and the contract's address are found, the
    write-contract command hands the request to the transport with whatever
    [ee.Key] holds, and ends as the transport answers. *)
Lemma WriteContractCommand_Execute_hands_key_to_transport `{Host}
    inv env log method contract c1 c2 digits entryPoint msg contractID :
  GetMethod (Contracts env) (CommandName inv) = Some method ->
  m_EntryPoint method = String c1 (String c2 digits) ->
  strconv.ParseInt digits 16 32 = (entryPoint, None) ->
  ParseResultToMessage inv (Contracts env) = Ok msg ->
  GetFromMethodName (Contracts env) (CommandName inv) = Some contract ->
  HexStringToBytes (c_Address contract) = Ok contractID ->
  let call := CallWriteMessageContract msg (Key env) contractID (uint32 entryPoint) in
  let r := run (Execute (WriteContractCommand inv)) env log in
  wire (snd r) = log ++ [call] /\
  fst r = match rpc_RoundTrip (RPCClient env) log call with
          | Ok _ =>
              Returned {| er_Message :=
                ["Transaction submitted to contract '" +:+ c_Name contract
                 +:+ "' at address " +:+ c_Address contract +:+ " ."] |}
          | Err e => Failed e
          end.
Proof.
  intros Hmethod Hslice Hparse Hmsg Hcontract Hid call r. subst call r.
  unfold run. simpl.
  unfold WriteContractCommand_Execute, parseEntryPoint, roundTrip, slice,
    bind, getEnv. simpl.
  rewrite Hmethod. simpl. rewrite Hslice. simpl. rewrite Hparse. simpl.
  rewrite Hmsg. simpl. rewrite Hcontract. simpl. rewrite Hid. simpl.
  destruct (rpc_RoundTrip _ _ _); simpl; auto.
Qed.

(** Unfolds the steps of the execution monad. *)
Ltac steps :=
  unfold run, decodeAndRender, parseEntryPoint, roundTrip, Contracts_Add,
    Parser_AddCommand, bind, getEnv, modifyEnv, deref, slice, try, tryWrap,
    tryErr, orPanic, ret, fail, panic, exit;
  simpl.

(** Case analysis on every call a run goes through. *)
Ltac by_cases :=
  repeat
    (match goal with
     | |- context [match ?x with _ => _ end] =>
         lazymatch x with
         | context [match _ with _ => _ end] => fail
         | _ => destruct x
         end
     end; simpl);
  auto.

(** The read-contract command never looks at the wallet: its run is the same
    whatever the key. *)
Lemma ReadContractCommand_Execute_ignores_key `{Host} inv k env log :
  fst (run (Execute (ReadContractCommand inv)) (set_Key k env) log)
  = fst (run (Execute (ReadContractCommand inv)) env log) /\
  wire (snd (run (Execute (ReadContractCommand inv)) (set_Key k env) log))
  = wire (snd (run (Execute (ReadContractCommand inv)) env log)).
Proof.
  unfold run. simpl.
  unfold ReadContractCommand_Execute, decodeAndRender, parseEntryPoint, roundTrip,
    bind, getEnv, deref, slice, try, tryWrap, orPanic, ret, fail, panic.
  simpl. split; by_cases.
Qed.

(** C3. Register stores the address as it is given, and the synthesized
    commands panic on one that is not hexadecimal. In the example world
    [register token zz token.abi] succeeds and stores the address ["zz"];
    afterwards both [token.balance_of] and [token.transfer] end in the panic
    "Invalid contract ID" instead of returning an error. *)
Theorem C3_unvalidated_address_panics_later :
  let r := run (Execute (RegisterCommand "token" "zz" "token.abi")) Demo.start [] in
  let env := ee (snd r) in
  fst r = Returned {| er_Message := ["Contract 'token' at address zz registered."] |} /\
  c_Address <$> (Contracts env !! "token") = Some "zz" /\
  HexStringToBytes "zz" = Err (Opaque "invalid hex string: zz") /\
  fst (run (Execute (ReadContractCommand
                       (Demo.invocation "token.balance_of" [("owner", "0xabcd")])))
           env [])
  = Panicked "Invalid contract ID" /\
  fst (run (Execute (WriteContractCommand
                       (Demo.invocation "token.transfer"
                          [("to", "0xabcd"); ("amount", "5")])))
           env [])
  = Panicked "Invalid contract ID".
Proof. vm_compute. repeat split; reflexivity. Qed.


(* ------------------------------------------------------------------------- *)
(** ** The entry point of a method *)
(* ------------------------------------------------------------------------- *)

Lemma digit_hexVal c :
  match hexVal c with
  | Some d => strconv.digit c = Some (Z.of_N d) /\ (16 <=? Z.of_N d) = false
  | None =>
      match strconv.digit c with
      | Some d => (16 <=? d) = true
      | None => True
      end
  end.
Proof.
  destruct c as [[] [] [] [] [] [] [] []]; vm_compute; auto.
Qed.

Lemma hexVal_range c d : hexVal c = Some d -> 0 <= Z.of_N d < 16.
Proof.
  intros Hd. pose proof (digit_hexVal c) as Hc. rewrite Hd in Hc.
  destruct Hc as [_ Hlt]. apply Z.leb_gt in Hlt. lia.
Qed.

Lemma hexNumberFrom_mono s : forall acc n,
  hexNumberFrom acc s = Some n -> 0 <= acc -> acc <= n.
Proof.
  induction s as [| c rest IH]; intros acc n Hn Hacc; simpl in Hn.
  - injection Hn as <-. lia.
  - destruct (hexVal c) as [d |] eqn:Hd; [| discriminate].
    pose proof (hexVal_range c d Hd).
    apply IH in Hn; lia.
Qed.

Section Loop.
Variables cutoff maxVal : Z.
Hypothesis Hmax : 0 <= maxVal < cutoff.
Hypothesis Hroom : maxVal * 16 + 16 <= 2 ^ 64.

Lemma parseUintLoop_hex s : forall acc n,
  hexNumberFrom acc s = Some n -> 0 <= acc -> n <= maxVal ->
  strconv.parseUintLoop 16 cutoff maxVal acc s = (n, None).
Proof.
  induction s as [| c rest IH]; intros acc n Hn Hacc Hle; simpl in *.
  - injection Hn as <-. reflexivity.
  - destruct (hexVal c) as [d |] eqn:Hd; [| discriminate].
    pose proof (digit_hexVal c) as Hc. rewrite Hd in Hc. destruct Hc as [-> ->].
    pose proof (hexVal_range c d Hd) as Hrange.
    pose proof (hexNumberFrom_mono _ _ _ Hn ltac:(lia)) as Hmono.
    replace (cutoff <=? acc) with false by (symmetry; apply Z.leb_gt; lia).
    unfold strconv.uint64.
    rewrite (Z.mod_small (acc * 16)) by lia.
    rewrite (Z.mod_small (acc * 16 + Z.of_N d)) by lia.
    replace (acc * 16 + Z.of_N d <? acc * 16) with false
      by (symmetry; apply Z.ltb_ge; lia).
    replace (maxVal <? acc * 16 + Z.of_N d) with false
      by (symmetry; apply Z.ltb_ge; lia).
    simpl. apply IH; [exact Hn | lia | exact Hle].
Qed.

Lemma parseUintLoop_not_hex s : forall acc,
  hexNumberFrom acc s = None -> 0 <= acc <= maxVal ->
  strconv.parseUintLoop 16 cutoff maxVal acc s = (0, Some ErrSyntax) \/
  strconv.parseUintLoop 16 cutoff maxVal acc s = (maxVal, Some ErrRange).
Proof.
  induction s as [| c rest IH]; intros acc Hn Hacc; simpl in *; [discriminate |].
  pose proof (digit_hexVal c) as Hc.
  destruct (hexVal c) as [d |] eqn:Hd.
  - destruct Hc as [-> ->].
    destruct (cutoff <=? acc); [auto |].
    destruct (_ || _) eqn:Hover; [auto |].
    apply orb_false_elim in Hover as [_ Hle]. apply Z.ltb_ge in Hle.
    pose proof (hexVal_range c d Hd) as Hrange.
    unfold strconv.uint64 in *.
    rewrite (Z.mod_small (acc * 16)) in * by lia.
    rewrite (Z.mod_small (acc * 16 + Z.of_N d)) in * by lia.
    apply IH; [exact Hn | lia].
  - destruct (strconv.digit c) as [d |]; [rewrite Hc |]; auto.
Qed.
End Loop.

Lemma ParseUint_hex s n :
  hexNumber s = Some n -> n <= 2 ^ 32 - 1 ->
  strconv.ParseUint s 16 32 = (n, None).
Proof.
  intros Hn Hle. destruct s as [| c rest]; [discriminate |].
  unfold strconv.ParseUint, hexNumber in *.
  apply parseUintLoop_hex;
    first [exact Hn | lia | vm_compute; split; [discriminate | reflexivity]].
Qed.

Lemma ParseUint_not_hex s :
  hexNumber s = None ->
  strconv.ParseUint s 16 32 = (0, Some ErrSyntax) \/
  strconv.ParseUint s 16 32 = (2 ^ 32 - 1, Some ErrRange).
Proof.
  intros Hn. destruct s as [| c rest]; [left; reflexivity |].
  unfold strconv.ParseUint, hexNumber in *.
  apply parseUintLoop_not_hex;
    first [exact Hn | lia | vm_compute; split; [discriminate | reflexivity]].
Qed.

Lemma ParseInt_hex digits n :
  hexNumber digits = Some n -> n < 2 ^ 31 ->
  strconv.ParseInt digits 16 32 = (n, None).
Proof.
  intros Hn Hlt. destruct digits as [| c rest]; [discriminate |].
  unfold strconv.ParseInt.
  assert (Hsign : Ascii.eqb c "+" = false /\ Ascii.eqb c "-" = false).
  { simpl in Hn. destruct (hexVal c) eqn:Hc; [| discriminate].
    split; apply Ascii.eqb_neq; intros ->; discriminate. }
  destruct Hsign as [-> ->].
  rewrite (ParseUint_hex _ _ Hn) by lia. simpl fst.
  replace (2 ^ (32 - 1) <=? n) with false by (symmetry; apply Z.leb_gt; lia).
  reflexivity.
Qed.

Lemma ParseInt_not_hex digits :
  hexNumber (unsigned digits) = None ->
  exists v s, strconv.ParseInt digits 16 32 = (v, Some (NumError "ParseInt" digits s)).
Proof.
  intros Hn. destruct digits as [| c rest]; [simpl; eauto |].
  unfold strconv.ParseInt. unfold unsigned in Hn.
  destruct (Ascii.eqb c "+"); [| destruct (Ascii.eqb c "-")]; cbn [orb] in Hn;
    destruct (ParseUint_not_hex _ Hn) as [-> | ->]; simpl; eauto.
Qed.

(** C4, as the specification states it, fails on a decimal entry point: the
    code drops the first two bytes of the string unseen and reads the rest in
    base 16, so ["100"] is read as ["0"] and yields 0, not 100, and ["16"]
    leaves nothing to read and is an error, one that is not [InvalidABI]. *)
Lemma C4_decimal_entry_point_is_not_read_in_base_10 :
  fst (run (parseEntryPoint "100") Demo.start []) = Returned 0 /\
  fst (run (parseEntryPoint "100") Demo.start []) <> Returned 100 /\
  fst (run (parseEntryPoint "16") Demo.start [])
  = Failed (NumError "ParseInt" EmptyString ErrSyntax) /\
  Is (NumError "ParseInt" EmptyString ErrSyntax) ErrInvalidABI = false.
Proof. vm_compute. repeat split; try reflexivity. discriminate. Qed.

(** What becomes of an entry point of at least two bytes: the first two are
    dropped and the rest is parsed in base 16. *)
Lemma parseEntryPoint_hexadecimal c1 c2 digits env log :
  (forall n,
     hexNumber digits = Some n -> n < 2 ^ 31 ->
     run (parseEntryPoint (String c1 (String c2 digits))) env log
     = (Returned n, {| ee := env; wire := log |})) /\
  (hexNumber (unsigned digits) = None ->
   exists s,
     run (parseEntryPoint (String c1 (String c2 digits))) env log
     = (Failed (NumError "ParseInt" digits s), {| ee := env; wire := log |})).
Proof.
  unfold run, parseEntryPoint, bind. simpl. split.
  - intros n Hn Hlt. rewrite (ParseInt_hex _ _ Hn Hlt). reflexivity.
  - intros Hn. destruct (ParseInt_not_hex _ Hn) as (v & s & ->).
    exists s. reflexivity.
Qed.

(** An error of the entry point is the error of the command, read or write,
    and ends it before anything else is done. *)
Lemma contractCommand_entry_point_error `{Host} readOnly inv env log method e :
  GetMethod (Contracts env) (CommandName inv) = Some method ->
  run (parseEntryPoint (m_EntryPoint method)) env log
  = (Failed e, {| ee := env; wire := log |}) ->
  run (Execute (contractCommand readOnly inv)) env log
  = (Failed e, {| ee := env; wire := log |}).
Proof.
  intros Hmethod Hparse. unfold run in *.
  destruct readOnly; simpl;
    [unfold ReadContractCommand_Execute | unfold WriteContractCommand_Execute];
    unfold bind at 1, getEnv; cbn [ee];
    unfold bind at 1; rewrite Hmethod; unfold deref, ret;
    unfold bind at 1; rewrite Hparse; reflexivity.
Qed.

Lemma hexNumber_nonneg digits n : hexNumber digits = Some n -> 0 <= n.
Proof.
  destruct digits as [| c rest]; [discriminate |].
  intros Hn. apply (hexNumberFrom_mono _ _ _ Hn). lia.
Qed.

(** C4, amended. Take a method whose entry point is written ["0x"] followed
    by some text, and the command synthesized for it, read or write. If the
    text is a string of hexadecimal digits denoting a number below 2^31, the
    command addresses the contract at that number: the one request it makes,
    once the message and the contract's address are found, carries it as the
    entry point (["0x10"] gives 16). If the text, a leading sign apart, is
    not a string of hexadecimal digits, the command returns the error of
    [strconv.ParseInt]; it sends nothing and changes nothing. *)
Theorem C4_hex_entry_point_addresses_the_method `{Host}
    readOnly inv env log method digits :
  GetMethod (Contracts env) (CommandName inv) = Some method ->
  m_EntryPoint method = String "0" (String "x" digits) ->
  let r := run (Execute (contractCommand readOnly inv)) env log in
  (hexNumber (unsigned digits) = None ->
   exists s, r = (Failed (NumError "ParseInt" digits s), {| ee := env; wire := log |}))
  /\
  (forall n msg contract contractID,
     hexNumber digits = Some n -> n < 2 ^ 31 ->
     ParseResultToMessage inv (Contracts env) = Ok msg ->
     GetFromMethodName (Contracts env) (CommandName inv) = Some contract ->
     HexStringToBytes (c_Address contract) = Ok contractID ->
     if readOnly
     then forall argBytes,
            proto_Marshal msg = Ok argBytes ->
            wire (snd r) = log ++ [CallReadContract argBytes contractID n]
     else wire (snd r)
          = log ++ [CallWriteMessageContract msg (Key env) contractID n]).
Proof.
  intros Hmethod Hentry r. subst r. split.
  - intros Hn.
    destruct (proj2 (parseEntryPoint_hexadecimal "0" "x" digits env log) Hn) as [s Hs].
    exists s. apply (contractCommand_entry_point_error _ _ _ _ method); [exact Hmethod |].
    rewrite Hentry. exact Hs.
  - intros n msg contract contractID Hn Hlt Hmsg Hcontract Hid.
    pose proof (hexNumber_nonneg _ _ Hn) as Hpos.
    assert (Hu : uint32 n = n) by (unfold uint32; apply Z.mod_small; lia).
    pose proof (ParseInt_hex _ _ Hn Hlt) as Hparse.
    destruct readOnly; simpl.
    + intros argBytes Hbytes. rewrite <- Hu at 1.
      unfold ReadContractCommand_Execute. steps.
      rewrite Hmethod. simpl. rewrite Hentry. simpl. rewrite Hparse. simpl.
      rewrite Hmsg. simpl. rewrite Hbytes. simpl. rewrite Hcontract. simpl.
      rewrite Hid. simpl. by_cases.
    + rewrite <- Hu at 1.
      unfold WriteContractCommand_Execute. steps.
      rewrite Hmethod. simpl. rewrite Hentry. simpl. rewrite Hparse. simpl.
      rewrite Hmsg. simpl. rewrite Hcontract. simpl. rewrite Hid. simpl. by_cases.
Qed.

Lemma C4_hex_entry_point_witness :
  let abi := {| abi_Methods :=
                  [ {| m_Name := "m"; m_Description := EmptyString;
                       m_EntryPoint := "0xzz"; m_Argument := "transfer_args";
                       m_Return := "transfer_result"; m_ReadOnly := false |} ];
                abi_Types := [] |} in
  let env := set_Contracts {[ "c" := newContract "c" "0x12" abi Demo.schema ]}
               Demo.start in
  wire (snd (run (Execute (ReadContractCommand
                             (Demo.invocation "token.balance_of" [("owner", "0xabcd")])))
                 Demo.registered []))
  = [CallReadContract (Demo.text "0xabcd") [x12; x34] 16] /\
  exists s,
    run (Execute (WriteContractCommand (Demo.invocation "c.m" []))) env []
    = (Failed (NumError "ParseInt" "zz" s), {| ee := env; wire := [] |}).
Proof.
  intros abi env. split.
  - refine (proj2 (C4_hex_entry_point_addresses_the_method true
                     (Demo.invocation "token.balance_of" [("owner", "0xabcd")])
                     Demo.registered [] Demo.balance_of "10" _ _)
              16
              {| msg_Descriptor :=
                   {| md_Name := "balance_of_args";
                      md_Fields := [ {| fd_Name := "owner"; fd_Kind := BytesKind |} ] |};
                 msg_Fields := [("owner", VString "0xabcd")] |}
              (newContract "token" "0x1234"
                 {| abi_Methods := [Demo.balance_of; Demo.transfer];
                    abi_Types := Demo.text "one-file" |} Demo.schema)
              [x12; x34] _ _ _ _ _ (Demo.text "0xabcd") _);
      vm_compute; reflexivity.
  - refine (proj1 (C4_hex_entry_point_addresses_the_method false
                     (Demo.invocation "c.m" []) env []
                     {| m_Name := "m"; m_Description := EmptyString;
                        m_EntryPoint := "0xzz"; m_Argument := "transfer_args";
                        m_Return := "transfer_result"; m_ReadOnly := false |}
                     "zz" _ _) _);
      vm_compute; reflexivity.
Defined.

(* ------------------------------------------------------------------------- *)
(** ** The two halves of a read *)
(* ------------------------------------------------------------------------- *)

Section Decode.

Context `{Host}.

(** A read is its request followed by the decoding of the response. *)
Lemma ReadContractCommand_Execute_split inv s :
  ReadContractCommand_Execute inv s
  = (r <~ readRequest inv ; decodeAndRender (snd r) (fst r)) s.
Proof.
  unfold ReadContractCommand_Execute, readRequest, decodeAndRender, parseEntryPoint,
    roundTrip, bind, getEnv, deref, slice, try, tryWrap, orPanic, ret, fail, panic.
  simpl. by_cases.
Qed.

(** The decoding reads nothing of the machine and leaves it as it is. *)
Lemma decodeAndRender_pure md payload s :
  snd (decodeAndRender md payload s) = s /\
  forall s', fst (decodeAndRender md payload s') = fst (decodeAndRender md payload s).
Proof.
  unfold decodeAndRender, bind, try, ret, fail.
  destruct (proto_Unmarshal payload (NewMessage md)) as [dMsg | e]; simpl; [| auto].
  destruct (prototext_Marshal dMsg); simpl; auto.
Qed.

End Decode.

(* ------------------------------------------------------------------------- *)
(** ** Further properties of the commands *)
(* ------------------------------------------------------------------------- *)

Section Requests.

Context `{Host}.

Lemma registerMethods_wire Name fDesc methods : forall s,
  wire (snd (registerMethods Name fDesc methods s)) = wire s.
Proof.
  induction methods as [| method rest IH]; intros s; simpl; [reflexivity |].
  unfold bind.
  destruct (ByName _ _) as [d |]; simpl; [| reflexivity].
  destruct (ParseABIFields d) as [params | e]; simpl; [| reflexivity].
  rewrite IH. reflexivity.
Qed.

Lemma RegisterCommand_Execute_wire Name Address ABIFilename s :
  wire (snd (RegisterCommand_Execute Name Address ABIFilename s)) = wire s.
Proof.
  unfold RegisterCommand_Execute. unfold bind at 1, getEnv. simpl.
  destruct (Contains _ _); [reflexivity |].
  unfold bind at 1. destruct (os_Open _) as [f | e]; simpl; [| reflexivity].
  unfold bind at 1. destruct (ioutil_ReadAll _) as [b | e]; simpl; [| reflexivity].
  unfold bind at 1. destruct (json_Unmarshal _) as [abi | e]; simpl; [| reflexivity].
  unfold bind at 1.
  destruct (proto_Unmarshal_FileDescriptorSet _) as [fds | e]; simpl; [| reflexivity].
  destruct (protodesc_NewFiles fds) as [| fDesc [| other rest]]; try reflexivity.
  unfold bind at 1. simpl. unfold bind at 1.
  match goal with
  | |- context [registerMethods ?n ?f ?m ?s] =>
      pose proof (registerMethods_wire n f m s) as Hw;
      destruct (registerMethods n f m s) as [[[] | e | msg | code] s']
  end; simpl in *; exact Hw.
Qed.

End Requests.

(** X1. Which commands reach the RPC transport. The register, open, create,
    info, generate and exit commands never hand it a request. The balance
    command makes at most one, of the procedure [chain.read_contract]; a
    read-contract command at most one read; a write-contract command at most
    one write, carrying whatever [ee.Key] holds. *)
Theorem X1_requests_made_by_each_command `{Host} c env log :
  let log' := wire (snd (run (Execute c) env log)) in
  match c with
  | BalanceCommand _ =>
      log' = log \/
      exists params, log' = log ++ [CallProcedure ReadContractCall params]
  | ReadContractCommand _ =>
      log' = log \/
      exists args contractID entryPoint,
        log' = log ++ [CallReadContract args contractID entryPoint]
  | WriteContractCommand _ =>
      log' = log \/
      exists msg contractID entryPoint,
        log' = log ++ [CallWriteMessageContract msg (Key env) contractID entryPoint]
  | _ => log' = log
  end.
Proof.
  destruct c; simpl.
  - unfold BalanceCommand_Execute. steps. by_cases; eauto.
  - reflexivity.
  - unfold GenerateKeyCommand_Execute. steps. by_cases.
  - unfold CreateCommand_Execute. steps. by_cases.
  - unfold InfoCommand_Execute. steps. by_cases.
  - unfold OpenCommand_Execute. steps. by_cases.
  - apply RegisterCommand_Execute_wire.
  - unfold ReadContractCommand_Execute. steps. by_cases; eauto 6.
  - unfold WriteContractCommand_Execute. steps. by_cases; eauto 6.
Qed.

Section RegisterErrors.

Context `{Host}.

Lemma registerMethods_outcome Name fDesc methods : forall s,
  match fst (registerMethods Name fDesc methods s) with
  | Returned _ => True
  | Failed e => Is e ErrInvalidABI = true
  | Panicked _ | Exited _ => False
  end.
Proof.
  induction methods as [| method rest IH]; intros s; simpl; [exact I |].
  unfold bind.
  destruct (ByName _ _) as [d |]; simpl; [| reflexivity].
  destruct (ParseABIFields d) as [params | e]; simpl; [| reflexivity].
  apply IH.
Qed.

End RegisterErrors.

(** X2. The register command never panics and never leaves the process,
    and every error it returns wraps [util.ErrContract] (the name is taken)
    or [util.ErrInvalidABI] (anything wrong with the ABI file, its schema or
    its methods). *)
Theorem X2_register_errors_are_contract_or_invalid_abi `{Host}
    Name Address ABIFilename env log :
  match fst (run (Execute (RegisterCommand Name Address ABIFilename)) env log) with
  | Returned _ => True
  | Failed e => Is e ErrContract = true \/ Is e ErrInvalidABI = true
  | Panicked _ | Exited _ => False
  end.
Proof.
  unfold run. simpl. unfold RegisterCommand_Execute. unfold bind at 1, getEnv. simpl.
  destruct (Contains _ _); [left; reflexivity |].
  unfold bind at 1. destruct (os_Open _) as [f | e]; simpl; [| right; reflexivity].
  unfold bind at 1. destruct (ioutil_ReadAll _) as [b | e]; simpl; [| right; reflexivity].
  unfold bind at 1. destruct (json_Unmarshal _) as [abi | e]; simpl; [| right; reflexivity].
  unfold bind at 1.
  destruct (proto_Unmarshal_FileDescriptorSet _) as [fds | e]; simpl;
    [| right; reflexivity].
  destruct (protodesc_NewFiles fds) as [| fDesc [| other rest]];
    try (right; reflexivity).
  unfold bind at 1. simpl. unfold bind at 1.
  match goal with
  | |- context [registerMethods ?n ?f ?m ?s] =>
      pose proof (registerMethods_outcome n f m s) as Ho;
      destruct (registerMethods n f m s) as [[[] | e | msg | code] s']
  end; simpl in *; auto.
Qed.

(** X3. When the ABI file cannot be opened, cannot be read, or is not a JSON
    document of the ABI's shape, the register command fails with
    [InvalidABI] around the cause and changes nothing. *)
Theorem X3_register_unreadable_abi_file `{Host} Name Address ABIFilename env log :
  Contains (Contracts env) Name = false ->
  let r := run (Execute (RegisterCommand Name Address ABIFilename)) env log in
  let unchanged := {| ee := env; wire := log |} in
  match os_Open ABIFilename with
  | Err e => r = (Failed (ErrorfErr ErrInvalidABI e), unchanged)
  | Ok jsonFile =>
      match ioutil_ReadAll jsonFile with
      | Err e => r = (Failed (ErrorfErr ErrInvalidABI e), unchanged)
      | Ok jsonBytes =>
          match json_Unmarshal jsonBytes with
          | Err e => r = (Failed (ErrorfErr ErrInvalidABI e), unchanged)
          | Ok _ => True
          end
      end
  end.
Proof.
  intros Hfresh r unchanged. subst r unchanged.
  unfold run. simpl. unfold RegisterCommand_Execute, bind, getEnv. simpl.
  rewrite Hfresh.
  destruct (os_Open ABIFilename) as [f | e]; simpl; [| reflexivity].
  destruct (ioutil_ReadAll f) as [b | e]; simpl; [| reflexivity].
  destruct (json_Unmarshal b) as [abi | e]; simpl; [| reflexivity].
  exact I.
Qed.

Lemma X3_register_unreadable_abi_file_witness :
  run (Execute (RegisterCommand "token" "0x1234" "nope.abi")) Demo.start []
  = (Failed (ErrorfErr ErrInvalidABI
               (Opaque "open nope.abi: no such file or directory")),
     {| ee := Demo.start; wire := [] |}).
Proof.
  exact (X3_register_unreadable_abi_file "token" "0x1234" "nope.abi" Demo.start [] eq_refl).
Defined.

Lemma er_Message_fold msgs : forall er,
  er_Message (fold_left AddMessage msgs er) = er_Message er ++ msgs.
Proof.
  induction msgs as [| m rest IH]; intros er; simpl.
  - rewrite app_nil_r. reflexivity.
  - rewrite IH. simpl. rewrite <- app_assoc. reflexivity.
Qed.

(** X4. An execution result keeps its messages in the order they were added:
    after adding [msgs] one by one, [Print] writes what it wrote before and
    then every added message, each once, on a line of its own and in the
    order of the additions; on a new result it writes exactly [msgs]. *)
Theorem X4_print_writes_messages_in_order er msgs :
  Print (fold_left AddMessage msgs er) = Print er ++ map Println msgs /\
  Print (fold_left AddMessage msgs NewExecutionResult) = map Println msgs /\
  length (Print (fold_left AddMessage msgs er))
  = (length (er_Message er) + length msgs)%nat.
Proof.
  unfold Print. rewrite !er_Message_fold.
  split; [apply map_app | split].
  - reflexivity.
  - rewrite length_map, length_app. reflexivity.
Qed.

(** X5. After the open command has returned its result, a wallet is open,
    and the info command, run next, succeeds: it shows the address and the
    private key of the key built from the bytes read from the wallet file,
    and changes nothing. *)
Theorem X5_open_then_info `{Host} Filename Password env log r s :
  run (Execute (OpenCommand Filename Password)) env log = (Returned r, s) ->
  exists file keyBytes key,
    os_Open Filename = Ok file /\
    ReadWalletFile file Password = Ok keyBytes /\
    NewKoinosKeysFromBytes keyBytes = Ok key /\
    IsWalletOpen (ee s) = true /\
    run (Execute InfoCommand) (ee s) (wire s)
    = (Returned {| er_Message := ["Wallet information:";
                                  "Address: " +:+ key_Address key;
                                  "Private: " +:+ key_Private key] |}, s).
Proof.
  intros Hrun. pose proof (OpenCommand_Execute_run Filename Password env log) as Ho.
  simpl in Hrun. rewrite Hrun in Ho.
  destruct Ho as (file & keyBytes & key & Hopen & Hread & Hkey & ->).
  exists file, keyBytes, key. repeat split; auto.
Qed.

Lemma X5_open_then_info_witness :
  let key := {| key_PrivateBytes := Demo.text "k" |} in
  let s := {| ee := set_Key (Some key) Demo.start; wire := [] |} in
  run (Execute (OpenCommand "wallet.dat" "secret")) Demo.start []
  = (Returned {| er_Message := ["Opened wallet: wallet.dat"] |}, s) /\
  exists file keyBytes key,
    os_Open "wallet.dat" = Ok file /\
    ReadWalletFile file "secret" = Ok keyBytes /\
    NewKoinosKeysFromBytes keyBytes = Ok key /\
    IsWalletOpen (ee s) = true /\
    run (Execute InfoCommand) (ee s) (wire s)
    = (Returned {| er_Message := ["Wallet information:";
                                  "Address: " +:+ key_Address key;
                                  "Private: " +:+ key_Private key] |}, s).
Proof.
  split; [vm_compute; reflexivity |].
  apply (X5_open_then_info "wallet.dat" "secret" Demo.start []
           {| er_Message := ["Opened wallet: wallet.dat"] |}).
  vm_compute. reflexivity.
Defined.

(** X6. After the create command has returned its result, a wallet is open,
    and the info command, run next, shows the address and the private key of
    the key that was generated. *)
Theorem X6_create_then_info `{Host} Filename Password env log r s :
  run (Execute (CreateCommand Filename Password)) env log = (Returned r, s) ->
  exists key,
    GenerateKoinosKey = Ok key /\
    IsWalletOpen (ee s) = true /\
    run (Execute InfoCommand) (ee s) (wire s)
    = (Returned {| er_Message := ["Wallet information:";
                                  "Address: " +:+ key_Address key;
                                  "Private: " +:+ key_Private key] |}, s).
Proof.
  intros Hrun. pose proof (CreateCommand_Execute_run Filename Password env log) as Hc.
  simpl in Hrun. rewrite Hrun in Hc.
  destruct Hc as (file & key & _ & _ & Hgen & _ & ->).
  exists key. repeat split; auto.
Qed.

(** X7. Whatever makes [ReadWalletFile] fail on a wallet file that could be
    opened, the open command reports it as [ErrWalletDecrypt], "check your
    password": the cause is dropped. Nothing changes. *)
Theorem X7_open_read_failure_is_decrypt_error `{Host}
    Filename Password env log file cause :
  os_Open Filename = Ok file ->
  ReadWalletFile file Password = Err cause ->
  run (Execute (OpenCommand Filename Password)) env log
  = (Failed (Errorf ErrWalletDecrypt "check your password"),
     {| ee := env; wire := log |}).
Proof.
  intros Hopen Hread. unfold run. simpl. unfold OpenCommand_Execute, bind.
  rewrite Hopen. simpl. rewrite Hread. reflexivity.
Qed.

(** X8. The create command goes on only when [os.Stat] reports that the
    file does not exist. When the file is there, and also when [os.Stat]
    fails for another reason, it fails with [ErrWalletExists] naming the
    file, and nothing changes. *)
Theorem X8_create_refuses_unless_file_is_missing `{Host} Filename Password env log :
  os_Stat Filename = None \/
  (exists e, os_Stat Filename = Some e /\ os_IsNotExist e = false) ->
  run (Execute (CreateCommand Filename Password)) env log
  = (Failed (Errorf ErrWalletExists Filename), {| ee := env; wire := log |}).
Proof.
  intros Hstat. unfold run. simpl. unfold CreateCommand_Execute.
  replace (IsNotExist (os_Stat Filename)) with false; [reflexivity |].
  destruct Hstat as [-> | (e & -> & He)]; simpl; auto.
Qed.

Lemma X6_create_then_info_witness :
  let key := {| key_PrivateBytes := Demo.text "k" |} in
  let s := {| ee := set_Key (Some key) Demo.start; wire := [] |} in
  run (Execute (CreateCommand "new.dat" "secret")) Demo.start []
  = (Returned {| er_Message := ["Created and opened new wallet: new.dat";
                                "Use the info command to see details"] |}, s) /\
  exists key,
    GenerateKoinosKey = Ok key /\
    IsWalletOpen (ee s) = true /\
    run (Execute InfoCommand) (ee s) (wire s)
    = (Returned {| er_Message := ["Wallet information:";
                                  "Address: " +:+ key_Address key;
                                  "Private: " +:+ key_Private key] |}, s).
Proof.
  split; [vm_compute; reflexivity |].
  apply (X6_create_then_info "new.dat" "secret" Demo.start []
           {| er_Message := ["Created and opened new wallet: new.dat";
                             "Use the info command to see details"] |}).
  vm_compute. reflexivity.
Defined.

Lemma X7_open_read_failure_witness :
  run (Execute (OpenCommand "wallet.dat" "guess")) Demo.start []
  = (Failed (Errorf ErrWalletDecrypt "check your password"),
     {| ee := Demo.start; wire := [] |}).
Proof.
  apply (X7_open_read_failure_is_decrypt_error "wallet.dat" "guess" Demo.start []
           "wallet.dat" (Opaque "cipher: message authentication failed"));
    reflexivity.
Defined.

Lemma X8_create_refuses_witness :
  run (Execute (CreateCommand "wallet.dat" "secret")) Demo.start []
  = (Failed (Errorf ErrWalletExists "wallet.dat"), {| ee := Demo.start; wire := [] |}).
Proof.
  apply (X8_create_refuses_unless_file_is_missing "wallet.dat" "secret" Demo.start []).
  left. reflexivity.
Defined.

(** X9. The balance command. With no Koin contract id in the environment it
    panics before asking anything. Otherwise it makes exactly one request,
    [chain.read_contract] with the environment's contract id and balance-of
    entry point and the serialized address; when the answer deserializes to
    the unsigned 64-bit [balance], the amount rendered (followed by
    [tKOIN]) is [balance] read as a signed 64-bit integer: a balance of 2^63
    or more is rendered as the negative [balance - 2^64]. *)
Theorem X9_balance_request_and_amount `{Host} address env log :
  match KoinContractID env with
  | None =>
      run (Execute (BalanceCommand address)) env log
      = (Panicked "runtime error: invalid memory address or nil pointer dereference",
         {| ee := env; wire := log |})
  | Some contractID =>
      let call :=
        CallProcedure ReadContractCall
          {| req_ContractID := contractID;
             req_EntryPoint := KoinBalanceOfEntry env;
             req_Args := Account_Serialize address |} in
      wire (snd (run (Execute (BalanceCommand address)) env log)) = log ++ [call] /\
      forall result balance,
        rpc_RoundTrip (RPCClient env) log call = Ok result ->
        DeserializeUInt64 result = Ok balance ->
        0 <= balance < 2 ^ 64 ->
        let amount := if balance <? 2 ^ 63 then balance else balance - 2 ^ 64 in
        fst (run (Execute (BalanceCommand address)) env log)
        = match SatoshiToDecimal amount KoinPrecision with
          | Ok dec => Returned {| er_Message := [dec +:+ " " +:+ KoinSymbol] |}
          | Err e => Failed e
          end
  end.
Proof.
  unfold run. simpl. unfold BalanceCommand_Execute. steps.
  destruct (KoinContractID env) as [contractID |]; simpl; [| reflexivity].
  split.
  - by_cases.
  - intros result balance Hrpc Hde Hrange. rewrite Hrpc. simpl. rewrite Hde. simpl.
    unfold int64. rewrite Z.mod_small by exact Hrange.
    destruct (SatoshiToDecimal _ _); reflexivity.
Qed.

Lemma X9_balance_witness :
  fst (run (Execute (BalanceCommand "alice")) Demo.start [])
  = Returned {| er_Message := ["500 tKOIN"] |}.
Proof.
  pose proof (X9_balance_request_and_amount "alice" Demo.start []) as [_ Hb].
  exact (Hb [x01; xf4] 500 eq_refl eq_refl ltac:(lia)).
Defined.

Lemma cutLast_qualified a b : is_Some (cutLast (a +:+ "." +:+ b)).
Proof.
  induction a as [| c a IH].
  - change (is_Some (cutLast (String "." b))). simpl.
    destruct (cutLast b) as [[p q] |]; eexists; reflexivity.
  - change (is_Some (cutLast (String c (a +:+ "." +:+ b)))). simpl.
    destruct IH as [[p q] ->]. eexists; reflexivity.
Qed.

(** X10. The names of the static commands differ from one another, and none
    of them is of the form [<contract>.<method>]: whatever the contract and
    the method are called, the name the register command gives a synthesized
    command is not the name of a static command. *)
Theorem X10_static_names_are_never_qualified :
  NoDup (map decl_Name BuildCommands) /\
  forall contractName method params,
    Forall (fun d => decl_Name d <> decl_Name (methodCommand contractName method params))
           BuildCommands.
Proof.
  split.
  - apply (bool_decide_unpack _). vm_compute. exact I.
  - intros contractName method params. rewrite decl_Name_methodCommand.
    apply Forall_forall. intros d Hd Heq.
    pose proof (cutLast_qualified contractName (m_Name method)) as [pq Hq].
    rewrite <- Heq in Hq.
    assert (Hnone : Forall (fun d => cutLast (decl_Name d) = None) BuildCommands)
      by repeat constructor.
    rewrite Forall_forall in Hnone. rewrite (Hnone d Hd) in Hq. discriminate.
Qed.

Section LoopBounds.
Variables cutoff maxVal : Z.
Hypothesis Hmax : 0 <= maxVal < cutoff.
Hypothesis Hroom : maxVal * 16 + 16 <= 2 ^ 64.

Lemma parseUintLoop_result s : forall acc v e,
  0 <= acc <= maxVal ->
  strconv.parseUintLoop 16 cutoff maxVal acc s = (v, e) ->
  match e with
  | None => 0 <= v <= maxVal
  | Some ErrRange => v = maxVal
  | Some _ => v = 0
  end.
Proof.
  induction s as [| c rest IH]; intros acc v e Hacc Hrun; simpl in Hrun.
  - injection Hrun as <- <-. exact Hacc.
  - destruct (strconv.digit c) as [d |]; [| injection Hrun as <- <-; reflexivity].
    destruct (16 <=? d); [injection Hrun as <- <-; reflexivity |].
    destruct (cutoff <=? acc); [injection Hrun as <- <-; reflexivity |].
    destruct (_ || _) eqn:Hover; [injection Hrun as <- <-; reflexivity |].
    apply orb_false_elim in Hover as [_ Hle]. apply Z.ltb_ge in Hle.
    apply (IH _ _ _ (conj (proj1 (Z.mod_pos_bound _ (2 ^ 64) ltac:(lia))) Hle) Hrun).
Qed.

Lemma parseUintLoop_overflow s : forall acc n,
  hexNumberFrom acc s = Some n -> 0 <= acc <= maxVal -> maxVal < n ->
  strconv.parseUintLoop 16 cutoff maxVal acc s = (maxVal, Some ErrRange).
Proof.
  induction s as [| c rest IH]; intros acc n Hn Hacc Hbig; simpl in *.
  - injection Hn as <-. lia.
  - destruct (hexVal c) as [d |] eqn:Hd; [| discriminate].
    pose proof (digit_hexVal c) as Hc. rewrite Hd in Hc. destruct Hc as [-> ->].
    pose proof (hexVal_range c d Hd) as Hrange.
    replace (cutoff <=? acc) with false by (symmetry; apply Z.leb_gt; lia).
    unfold strconv.uint64.
    rewrite (Z.mod_small (acc * 16)) by lia.
    rewrite (Z.mod_small (acc * 16 + Z.of_N d)) by lia.
    replace (acc * 16 + Z.of_N d <? acc * 16) with false
      by (symmetry; apply Z.ltb_ge; lia).
    destruct (maxVal <? acc * 16 + Z.of_N d) eqn:Hcmp; simpl; [reflexivity |].
    apply Z.ltb_ge in Hcmp. apply (IH _ _ Hn); lia.
Qed.
End LoopBounds.

Lemma ParseUint_result s v e :
  strconv.ParseUint s 16 32 = (v, e) ->
  match e with
  | None => 0 <= v <= 2 ^ 32 - 1
  | Some ErrRange => v = 2 ^ 32 - 1
  | Some _ => v = 0
  end.
Proof.
  destruct s as [| c rest]; [intros [= <- <-]; reflexivity |].
  unfold strconv.ParseUint.
  apply parseUintLoop_result;
    first [lia | vm_compute; split; [discriminate | reflexivity]].
Qed.

Lemma ParseInt_range s n :
  strconv.ParseInt s 16 32 = (n, None) -> - 2 ^ 31 <= n < 2 ^ 31.
Proof.
  destruct s as [| c rest]; [discriminate |].
  unfold strconv.ParseInt.
  destruct (if Ascii.eqb c "+" then _ else _) as [neg t].
  destruct (strconv.ParseUint t 16 32) as [un e] eqn:Hu.
  apply ParseUint_result in Hu.
  assert (Hcut : 2 ^ (32 - 1) = 2 ^ 31) by reflexivity.
  destruct e as [[] |]; try discriminate; simpl fst;
    destruct neg; simpl negb; simpl andb; rewrite ?Hcut;
    repeat match goal with
    | |- context [if ?b then _ else _] => destruct b eqn:?
    end;
    intros [= <-]; rewrite ?Z.leb_gt, ?Z.ltb_ge in *; try lia.
Qed.

(** X11. An entry point that parses lies in the signed 32-bit range, so the
    conversion [uint32(entryPoint)] loses nothing: it is the number itself
    when that is not negative, and the number plus 2^32 when it is. Parsing
    changes nothing. *)
Theorem X11_entry_point_in_int32_range env log str n s :
  run (parseEntryPoint str) env log = (Returned n, s) ->
  - 2 ^ 31 <= n < 2 ^ 31 /\
  uint32 n = (if n <? 0 then n + 2 ^ 32 else n) /\
  s = {| ee := env; wire := log |}.
Proof.
  unfold run, parseEntryPoint, bind, slice.
  destruct (sliceFrom 2 str) as [digits |]; simpl; [| discriminate].
  destruct (strconv.ParseInt digits 16 32) as [v [e |]] eqn:Hp; simpl;
    [discriminate |].
  intros [= <- <-]. apply ParseInt_range in Hp.
  split; [exact Hp | split; [| reflexivity]].
  unfold uint32. destruct (v <? 0) eqn:Hneg.
  - apply Z.ltb_lt in Hneg.
    rewrite <- (Z.mod_add v 1 (2 ^ 32)) by lia.
    rewrite Z.mod_small; lia.
  - apply Z.ltb_ge in Hneg. rewrite Z.mod_small; lia.
Qed.

Lemma X11_entry_point_in_int32_range_witness :
  run (parseEntryPoint "0x7fffffff") Demo.start []
  = (Returned 2147483647, {| ee := Demo.start; wire := [] |}) /\
  uint32 2147483647 = 2147483647.
Proof.
  split; [reflexivity |].
  exact (proj1 (proj2 (X11_entry_point_in_int32_range Demo.start [] "0x7fffffff"
                         2147483647 _ eq_refl))).
Defined.

(** Digits that denote 2^31 or more are a range error of the parse. *)
Lemma parseEntryPoint_too_large c1 c2 digits n env log :
  hexNumber digits = Some n -> 2 ^ 31 <= n ->
  run (parseEntryPoint (String c1 (String c2 digits))) env log
  = (Failed (NumError "ParseInt" digits ErrRange), {| ee := env; wire := log |}).
Proof.
  intros Hn Hbig. unfold run, parseEntryPoint, bind. simpl.
  destruct digits as [| c rest]; [discriminate |].
  unfold strconv.ParseInt.
  assert (Hsign : Ascii.eqb c "+" = false /\ Ascii.eqb c "-" = false).
  { simpl in Hn. destruct (hexVal c) eqn:Hc; [| discriminate].
    split; apply Ascii.eqb_neq; intros ->; discriminate. }
  destruct Hsign as [-> ->].
  destruct (Z_le_gt_dec n (2 ^ 32 - 1)) as [Hle | Hgt].
  - rewrite (ParseUint_hex _ _ Hn Hle). cbn [fst negb andb].
    replace (2 ^ (32 - 1) <=? n) with true by (symmetry; apply Z.leb_le; lia).
    reflexivity.
  - assert (Hu : strconv.ParseUint (String c rest) 16 32
                 = (2 ^ 32 - 1, Some ErrRange)).
    { unfold strconv.ParseUint, hexNumber in *.
      apply parseUintLoop_overflow with (n := n);
        first [exact Hn | lia | vm_compute; split; [discriminate | reflexivity]]. }
    rewrite Hu. reflexivity.
Qed.

(** X12. A read or write contract command whose method has an entry point
    with hexadecimal digits, after its first two bytes, that denote 2^31 or
    more, however many digits there are, fails with strconv's range error:
    the number is never cut down to 32 bits, nothing is sent and nothing
    changes. *)
Theorem X12_entry_point_too_large_is_range_error `{Host}
    readOnly inv env log method c1 c2 digits n :
  GetMethod (Contracts env) (CommandName inv) = Some method ->
  m_EntryPoint method = String c1 (String c2 digits) ->
  hexNumber digits = Some n -> 2 ^ 31 <= n ->
  run (Execute (contractCommand readOnly inv)) env log
  = (Failed (NumError "ParseInt" digits ErrRange), {| ee := env; wire := log |}).
Proof.
  intros Hmethod Hentry Hn Hbig.
  apply (contractCommand_entry_point_error _ _ _ _ method); [exact Hmethod |].
  rewrite Hentry. apply (parseEntryPoint_too_large _ _ _ n); assumption.
Qed.

Lemma X12_entry_point_too_large_witness :
  let method := {| m_Name := "m"; m_Description := EmptyString;
                   m_EntryPoint := "0x80000000"; m_Argument := "transfer_args";
                   m_Return := "transfer_result"; m_ReadOnly := false |} in
  let abi := {| abi_Methods := [method]; abi_Types := [] |} in
  let env := set_Contracts {[ "c" := newContract "c" "0x12" abi Demo.schema ]}
               Demo.start in
  run (Execute (WriteContractCommand (Demo.invocation "c.m" []))) env []
  = (Failed (NumError "ParseInt" "80000000" ErrRange), {| ee := env; wire := [] |}).
Proof.
  intros method abi env.
  refine (X12_entry_point_too_large_is_range_error false (Demo.invocation "c.m" [])
            env [] method "0" "x" "80000000" 2147483648 _ _ _ _);
    vm_compute; first [reflexivity | discriminate].
Defined.

(** X13. A minus sign after the two dropped bytes is accepted: hexadecimal
    digits denoting [n], at most 2^31, behind it give the entry point [-n],
    which goes to the transport as [2^32 - n] when [n] is positive. *)
Theorem X13_negative_entry_point_wraps c1 c2 digits n env log :
  hexNumber digits = Some n -> n <= 2 ^ 31 ->
  run (parseEntryPoint (String c1 (String c2 (String "-" digits)))) env log
  = (Returned (- n), {| ee := env; wire := log |}) /\
  (0 < n -> uint32 (- n) = 2 ^ 32 - n).
Proof.
  intros Hn Hle. split.
  - unfold run, parseEntryPoint, bind. simpl.
    unfold strconv.ParseInt. simpl Ascii.eqb. cbv iota.
    rewrite (ParseUint_hex _ _ Hn) by lia. cbn [fst negb andb].
    replace (2 ^ (32 - 1) <? n) with false by (symmetry; apply Z.ltb_ge; lia).
    reflexivity.
  - intros Hpos. unfold uint32.
    rewrite <- (Z.mod_add (- n) 1 (2 ^ 32)) by lia.
    rewrite Z.mod_small; lia.
Qed.

Lemma X13_negative_entry_point_witness :
  run (parseEntryPoint "0x-1") Demo.start []
  = (Returned (-1), {| ee := Demo.start; wire := [] |}) /\
  (0 < 1 -> uint32 (-1) = 2 ^ 32 - 1).
Proof.
  apply (X13_negative_entry_point_wraps "0" "x" "1" 1); [reflexivity |].
  vm_compute. discriminate.
Defined.

Lemma sliceFrom_short s : (String.length s < 2)%nat -> sliceFrom 2 s = None.
Proof.
  destruct s as [| c1 [| c2 rest]]; simpl; intros Hlen; try reflexivity. lia.
Qed.

(** X14. A read or write contract command whose method the registry does not
    hold panics on the nil method, and one whose method has an entry point of
    fewer than two bytes panics on the slice [EntryPoint[2:]], with the
    bounds in the message ("... out of range [2:1]" for one byte, "[2:0]" for
    none); in both cases before anything is sent, and with the environment
    unchanged. *)
Theorem X14_contract_command_panics_before_sending `{Host} readOnly inv env log :
  let r := run (Execute (contractCommand readOnly inv)) env log in
  match GetMethod (Contracts env) (CommandName inv) with
  | None =>
      r = (Panicked "runtime error: invalid memory address or nil pointer dereference",
           {| ee := env; wire := log |})
  | Some method =>
      (String.length (m_EntryPoint method) < 2)%nat ->
      r = (Panicked (sliceBoundsError 2 (m_EntryPoint method)),
           {| ee := env; wire := log |}) /\
      (sliceBoundsError 2 (m_EntryPoint method)
       = "runtime error: slice bounds out of range [2:0]" \/
       sliceBoundsError 2 (m_EntryPoint method)
       = "runtime error: slice bounds out of range [2:1]")
  end.
Proof.
  intros r. subst r.
  destruct (GetMethod (Contracts env) (CommandName inv)) as [method |] eqn:Hmethod.
  - intros Hshort.
    destruct readOnly; simpl;
      [unfold ReadContractCommand_Execute | unfold WriteContractCommand_Execute];
      steps; rewrite Hmethod; simpl;
      (destruct (m_EntryPoint method) as [| c1 [| c2 rest]]; simpl in Hshort;
       [split; [reflexivity | left; reflexivity]
       | split; [reflexivity | right; reflexivity]
       | lia]).
  - destruct readOnly; simpl;
      [unfold ReadContractCommand_Execute | unfold WriteContractCommand_Execute];
      steps; rewrite Hmethod; reflexivity.
Qed.

Lemma X14_contract_command_panics_witness :
  let abi := {| abi_Methods :=
                  [ {| m_Name := "m"; m_Description := EmptyString;
                       m_EntryPoint := "7"; m_Argument := "transfer_args";
                       m_Return := "transfer_result"; m_ReadOnly := false |} ];
                abi_Types := [] |} in
  let env := set_Contracts {[ "c" := newContract "c" "0x12" abi Demo.schema ]}
               Demo.start in
  run (Execute (WriteContractCommand (Demo.invocation "c.m" []))) env []
  = (Panicked "runtime error: slice bounds out of range [2:1]",
     {| ee := env; wire := [] |}).
Proof.
  intros abi env.
  exact (proj1 (X14_contract_command_panics_before_sending
                  false (Demo.invocation "c.m" []) env [] (Nat.lt_succ_diag_r 1))).
Defined.

(** X15. When the arguments of a read or write contract command cannot be
    made into the request message, the command fails with [InvalidABI]
    around the cause, and nothing is sent. *)
Theorem X15_encode_failure_sends_nothing `{Host}
    readOnly inv env log method c1 c2 digits entryPoint cause :
  GetMethod (Contracts env) (CommandName inv) = Some method ->
  m_EntryPoint method = String c1 (String c2 digits) ->
  strconv.ParseInt digits 16 32 = (entryPoint, None) ->
  ParseResultToMessage inv (Contracts env) = Err cause ->
  run (Execute (contractCommand readOnly inv)) env log
  = (Failed (ErrorfErr ErrInvalidABI cause), {| ee := env; wire := log |}).
Proof.
  intros Hmethod Hentry Hparse Hmsg.
  destruct readOnly; simpl;
    [unfold ReadContractCommand_Execute | unfold WriteContractCommand_Execute];
    steps; rewrite Hmethod; simpl; rewrite Hentry; simpl; rewrite Hparse; simpl;
    rewrite Hmsg; reflexivity.
Qed.

Lemma X15_encode_failure_witness :
  run (Execute (ReadContractCommand (Demo.invocation "token.balance_of" [])))
      Demo.registered []
  = (Failed (ErrorfErr ErrInvalidABI (Opaque "missing parameter")),
     {| ee := Demo.registered; wire := [] |}).
Proof.
  apply (X15_encode_failure_sends_nothing true (Demo.invocation "token.balance_of" [])
           Demo.registered [] Demo.balance_of "0" "x" "10" 16);
    vm_compute; reflexivity.
Defined.

(** X16. A read-contract command whose method, entry point, message and
    contract address are found makes exactly one request: a read of the
    marshalled message at the decoded address and at [uint32] of the entry
    point. The environment is unchanged however the command ends, and an
    error of the transport is returned as it is. *)
Theorem X16_read_request `{Host}
    inv env log method contract c1 c2 digits entryPoint msg argBytes contractID :
  GetMethod (Contracts env) (CommandName inv) = Some method ->
  m_EntryPoint method = String c1 (String c2 digits) ->
  strconv.ParseInt digits 16 32 = (entryPoint, None) ->
  ParseResultToMessage inv (Contracts env) = Ok msg ->
  proto_Marshal msg = Ok argBytes ->
  GetFromMethodName (Contracts env) (CommandName inv) = Some contract ->
  HexStringToBytes (c_Address contract) = Ok contractID ->
  let call := CallReadContract argBytes contractID (uint32 entryPoint) in
  let r := run (Execute (ReadContractCommand inv)) env log in
  snd r = {| ee := env; wire := log ++ [call] |} /\
  forall e, rpc_RoundTrip (RPCClient env) log call = Err e -> fst r = Failed e.
Proof.
  intros Hmethod Hentry Hparse Hmsg Hbytes Hcontract Hid call r. subst call r.
  unfold run. simpl. unfold ReadContractCommand_Execute. steps.
  rewrite Hmethod. simpl. rewrite Hentry. simpl. rewrite Hparse. simpl.
  rewrite Hmsg. simpl. rewrite Hbytes. simpl. rewrite Hcontract. simpl.
  rewrite Hid. simpl.
  split.
  - by_cases.
  - intros e ->. reflexivity.
Qed.

Lemma X16_read_request_witness :
  snd (run (Execute (ReadContractCommand
                       (Demo.invocation "token.balance_of" [("owner", "0xabcd")])))
           Demo.registered [])
  = {| ee := Demo.registered;
       wire := [CallReadContract (Demo.text "0xabcd") [x12; x34] 16] |}.
Proof.
  refine (proj1 (X16_read_request
            (Demo.invocation "token.balance_of" [("owner", "0xabcd")])
            Demo.registered [] Demo.balance_of
            (newContract "token" "0x1234"
               {| abi_Methods := [Demo.balance_of; Demo.transfer];
                  abi_Types := Demo.text "one-file" |} Demo.schema)
            "0" "x" "10" 16
            {| msg_Descriptor :=
                 {| md_Name := "balance_of_args";
                    md_Fields := [ {| fd_Name := "owner"; fd_Kind := BytesKind |} ] |};
               msg_Fields := [("owner", VString "0xabcd")] |}
            (Demo.text "0xabcd") [x12; x34] _ _ _ _ _ _ _));
    vm_compute; reflexivity.
Defined.

(** X17. A write-contract command whose method, entry point, message and
    contract address are found makes exactly one request: a write of the
    message, not marshalled, with the key of the environment, at the decoded
    address and at [uint32] of the entry point. The environment is unchanged;
    an error of the transport is returned as it is, and on its success the
    one message names the contract and its address. *)
Theorem X17_write_request `{Host}
    inv env log method contract c1 c2 digits entryPoint msg contractID :
  GetMethod (Contracts env) (CommandName inv) = Some method ->
  m_EntryPoint method = String c1 (String c2 digits) ->
  strconv.ParseInt digits 16 32 = (entryPoint, None) ->
  ParseResultToMessage inv (Contracts env) = Ok msg ->
  GetFromMethodName (Contracts env) (CommandName inv) = Some contract ->
  HexStringToBytes (c_Address contract) = Ok contractID ->
  let call := CallWriteMessageContract msg (Key env) contractID (uint32 entryPoint) in
  let r := run (Execute (WriteContractCommand inv)) env log in
  snd r = {| ee := env; wire := log ++ [call] |} /\
  fst r = match rpc_RoundTrip (RPCClient env) log call with
          | Ok _ =>
              Returned {| er_Message :=
                ["Transaction submitted to contract '" +:+ c_Name contract
                 +:+ "' at address " +:+ c_Address contract +:+ " ."] |}
          | Err e => Failed e
          end.
Proof.
  intros Hmethod Hentry Hparse Hmsg Hcontract Hid call r. subst call r.
  unfold run. simpl. unfold WriteContractCommand_Execute. steps.
  rewrite Hmethod. simpl. rewrite Hentry. simpl. rewrite Hparse. simpl.
  rewrite Hmsg. simpl. rewrite Hcontract. simpl. rewrite Hid. simpl.
  destruct (rpc_RoundTrip _ _ _); simpl; auto.
Qed.

Lemma X17_write_request_witness :
  let key := {| key_PrivateBytes := Demo.text "k" |} in
  let env := set_Key (Some key) Demo.registered in
  let msg := {| msg_Descriptor :=
                  {| md_Name := "transfer_args";
                     md_Fields := [ {| fd_Name := "to"; fd_Kind := BytesKind |};
                                    {| fd_Name := "amount"; fd_Kind := Uint64Kind |} ] |};
                msg_Fields := [("to", VString "0xabcd"); ("amount", VString "5")] |} in
  snd (run (Execute (WriteContractCommand
                       (Demo.invocation "token.transfer"
                          [("to", "0xabcd"); ("amount", "5")])))
           env [])
  = {| ee := env;
       wire := [CallWriteMessageContract msg (Some key) [x12; x34] 32] |}.
Proof.
  intros key env msg.
  refine (proj1 (X17_write_request
            (Demo.invocation "token.transfer" [("to", "0xabcd"); ("amount", "5")])
            env [] Demo.transfer
            (newContract "token" "0x1234"
               {| abi_Methods := [Demo.balance_of; Demo.transfer];
                  abi_Types := Demo.text "one-file" |} Demo.schema)
            "0" "x" "20" 32 msg [x12; x34] _ _ _ _ _ _));
    vm_compute; reflexivity.
Defined.
